(** * Shallow embedding of the NHL Fenwick shot scraper and feature processor

    Sources: [src/shot_scraper.py] (class [NHLShotScraper]) and
    [src/feature_processor.py] (class [XGProcessor]).

    Modelling conventions.
    - Python strings are [string] (ASCII), integers are [Z].
    - A JSON object field read with [d["k"]] is an [option]: [None] means
      the key is missing, and reading it raises [KeyError].  A field read
      with [d.get("k")] is an [option] whose [None] is Python's [None].
    - Code that may raise returns an [option] ([None] = an exception).
    - The NHL API delivers shot coordinates as integers, so [xCoord] and
      [yCoord] are [Z]; the only floating point computation of
      [get_danger_zone] is done with Rocq's primitive IEEE-754 floats. *)

From stdpp Require Import base gmap strings list.
From Stdlib Require Import ZArith QArith Ascii String Floats Uint63.

Local Set Warnings "-inexact-float".
Open Scope Z_scope.

(* ------------------------------------------------------------------ *)
(** ** Python's [int()] on a [str] (ASCII fragment) *)

(** Characters Python's [int()] strips around a number. *)
Definition py_is_space (c : ascii) : bool :=
  let n := nat_of_ascii c in
  ((9 <=? n)%nat && (n <=? 13)%nat) || ((28 <=? n)%nat && (n <=? 31)%nat)
  || (n =? 32)%nat.

Definition py_is_digit (c : ascii) : bool :=
  let n := nat_of_ascii c in (48 <=? n)%nat && (n <=? 57)%nat.

Definition digit_value (c : ascii) : Z := Z.of_nat (nat_of_ascii c) - 48.

Fixpoint drop_spaces (l : list ascii) : list ascii :=
  match l with
  | c :: r => if py_is_space c then drop_spaces r else l
  | [] => []
  end.

Definition py_strip (l : list ascii) : list ascii :=
  rev (drop_spaces (rev (drop_spaces l))).

(** Digits, with single underscores allowed between digits ([int("1_0")]). *)
Fixpoint digits_go (acc : Z) (last_us : bool) (l : list ascii) : option Z :=
  match l with
  | [] => if last_us then None else Some acc
  | c :: r =>
      if py_is_digit c then digits_go (acc * 10 + digit_value c) false r
      else if ascii_dec c "_"%char then
        (if last_us then None else digits_go acc true r)
      else None
  end.

Definition parse_digits (l : list ascii) : option Z :=
  match l with
  | c :: r => if py_is_digit c then digits_go (digit_value c) false r else None
  | [] => None
  end.

(** [int(s)]: [None] when Python raises [ValueError]. *)
Definition py_int (s : string) : option Z :=
  match py_strip (list_ascii_of_string s) with
  | "+"%char :: r => parse_digits r
  | "-"%char :: r => Z.opp <$> parse_digits r
  | t => parse_digits t
  end.

(** Python slice [s[i:j]] for [0 <= i <= j]. *)
Definition py_slice (s : string) (i j : nat) : string := substring i (j - i) s.

(* ------------------------------------------------------------------ *)
(** ** [NHLShotScraper.second_diff] *)

Definition second_diff (time1 time2 : string) : option Z :=
  m1 ← py_int (py_slice time1 0 2);
  s1 ← py_int (py_slice time1 3 5);
  m2 ← py_int (py_slice time2 0 2);
  s2 ← py_int (py_slice time2 3 5);
  Some (Z.abs ((m2 * 60 + s2) - (m1 * 60 + s1))).

(* ------------------------------------------------------------------ *)
(** ** Play-by-play events *)

(** [play["details"]]: the fields this code reads. *)
Record details := mkDetails {
  eventOwnerTeamId : option Z;
  zoneCode : option string;
  scoringPlayerId : option Z;
  shootingPlayerId : option Z;
  xCoord : option Z;
  yCoord : option Z;
  shotType : option string;
  goalieInNetId : option Z;
}.

(** One element of [game_data["plays"]]. *)
Record play := mkPlay {
  typeDescKey : string;
  timeInPeriod : string;
  play_details : option details;
  homeTeamDefendingSide : option string;
  situationCode : option string;
}.

(* ------------------------------------------------------------------ *)
(** ** [NHLShotScraper.is_rebound] and [NHLShotScraper.is_rush] *)

Definition is_rebound (p : play) (prev_play : option play) : option Z :=
  match prev_play with
  | None => Some 0
  | Some q =>
      time_diff ← second_diff (timeInPeriod p) (timeInPeriod q);
      if bool_decide (typeDescKey q = "blocked-shot") && (time_diff <=? 2)
      then Some 1
      else if bool_decide (typeDescKey q ∈ ["missed-shot"; "shot-on-goal"])
              && (time_diff <=? 3)
      then Some 1
      else Some 0
  end.

Definition stoppages : list string :=
  ["stoppage"; "faceoff"; "goal"; "penalty"; "period-start"; "period-end";
   "game-end"].

(** [prev_play.get("details", {}).get("zoneCode")] *)
Definition prev_zoneCode (q : play) : option string :=
  match play_details q with Some qd => zoneCode qd | None => None end.

(** [prev_play.get("details", {}).get("eventOwnerTeamId")] *)
Definition prev_eventOwnerTeamId (q : play) : option Z :=
  match play_details q with Some qd => eventOwnerTeamId qd | None => None end.

Definition is_rush (p : play) (prev_play : option play) : option Z :=
  match prev_play with
  | None => Some 0
  | Some q =>
      if bool_decide (typeDescKey q ∈ stoppages) then Some 0 else
      time_diff ← second_diff (timeInPeriod p) (timeInPeriod q);
      if time_diff >? 4 then Some 0 else
      pd ← play_details p;
      let shooting_team_id := eventOwnerTeamId pd in
      let prev_zone := prev_zoneCode q in
      let prev_owner := prev_eventOwnerTeamId q in
      match prev_zone with
      | None => Some 0
      | Some z =>
          if bool_decide (z = "N") then Some 1
          else if bool_decide (z = "D") && bool_decide (prev_owner = shooting_team_id)
          then Some 1
          else if bool_decide (z = "O") && negb (bool_decide (prev_owner = shooting_team_id))
          then Some 1
          else Some 0
      end
  end.

(* ------------------------------------------------------------------ *)
(** ** [NHLShotScraper.get_danger_zone] *)

(** A non-negative integer below 2^63 as a double (exact below 2^53). *)
Definition float_of_Z (z : Z) : float := PrimFloat.of_uint63 (Uint63.of_Z z).

(** [-0.8*x_abs + 77.2] in IEEE-754 double arithmetic. *)
Definition y_boundary (x_abs : Z) : float :=
  PrimFloat.add (PrimFloat.mul (PrimFloat.opp 0.8%float) (float_of_Z x_abs)) 77.2%float.

Definition get_danger_zone (x y : Z) : string :=
  let x_abs := Z.abs x in
  let y_abs := Z.abs y in
  if (69 <=? x_abs) && (x_abs <=? 89) && (y_abs <=? 6) then "high"
  else if (69 <=? x_abs) && (x_abs <=? 89) && (6 <? y_abs) && (y_abs <=? 22) then
    (if PrimFloat.leb (float_of_Z y_abs) (y_boundary x_abs) then "med" else "low")
  else if (44 <=? x_abs) && (x_abs <? 69) && (y_abs <=? 22) then "med"
  else "low".

(* ------------------------------------------------------------------ *)
(** ** Player statistics and the scraper's caches *)

(** [player_info["featuredStats"]["regularSeason"]["career"]]. *)
Record career_stats := mkCareer {
  savePctg : option float;
  shootingPctg : option float;
}.

(** The provider's answer; [None] in a field means the key is missing
    ([info_shootsCatches] is read with [[]] and may hold JSON [null]). *)
Record player_info := mkInfo {
  info_firstName : option string;
  info_lastName : option string;
  info_position : option string;
  info_shootsCatches : option (option string);
  info_career : option career_stats;
}.

(** The stats list [[position, shootsCatches, pct]]. *)
Record stats := mkStats {
  st_position : option string;
  st_hand : option string;
  st_pct : option float;
}.

(** [self.player_dict], [self.player_stats_cache], and the log of calls to
    [self.client.stats.player_career_stats]: the id and whether
    [get_player_stats] returned normally after that call. *)
Record scraper_state := mkState {
  player_dict : gmap Z string;
  player_stats_cache : gmap Z stats;
  provider_calls : list (Z * bool);
}.

Definition init_state : scraper_state := mkState ∅ ∅ [].

(** The external player-stats provider; [None] when the call raises. *)
Definition provider := Z → option player_info.

(** Everything [get_player_stats] computes from the provider's answer;
    [None] when one of the reads raises. *)
Definition stats_of_info (info : player_info) : option (string * stats) :=
  fn ← info_firstName info;
  ln ← info_lastName info;
  pos ← info_position info;
  hand ← info_shootsCatches info;
  car ← info_career info;
  let pct := if bool_decide (pos = "G") then savePctg car else shootingPctg car in
  Some (fn +:+ " " +:+ ln, mkStats (Some pos) hand pct).

Definition get_player_stats (prov : provider) (player_id : Z) (st : scraper_state)
  : scraper_state * option (string * stats) :=
  match player_dict st !! player_id with
  | Some name =>
      match player_stats_cache st !! player_id with
      | Some s => (st, Some (name, s))
      | None => (st, None)
      end
  | None =>
      match prov player_id ≫= stats_of_info with
      | Some (name, s) =>
          (mkState (<[player_id := name]> (player_dict st))
                   (<[player_id := s]> (player_stats_cache st))
                   (provider_calls st ++ [(player_id, true)]),
           Some (name, s))
      | None =>
          (mkState (player_dict st) (player_stats_cache st)
                   (provider_calls st ++ [(player_id, false)]),
           None)
      end
  end.

(** A sequence of lookups, each one either returning or raising (the
    scraper catches the exception per event and goes on). *)
Fixpoint run_lookups (prov : provider) (ids : list Z) (st : scraper_state)
  : scraper_state :=
  match ids with
  | [] => st
  | i :: r => run_lookups prov r (fst (get_player_stats prov i st))
  end.

(* ------------------------------------------------------------------ *)
(** ** The state and exception monad of one event's [try] block *)

Definition M (A : Type) : Type := scraper_state → scraper_state * option A.

Definition mret_M {A} (a : A) : M A := λ st, (st, Some a).
Definition mbind_M {A B} (m : M A) (f : A → M B) : M B :=
  λ st, match m st with
        | (st', Some a) => f a st'
        | (st', None) => (st', None)
        end.
(** An [option] computation: [None] raises. *)
Definition lift {A} (o : option A) : M A := λ st, (st, o).

Notation "'let*' x := m 'in' k" := (mbind_M m (λ x, k))
  (at level 200, x name, m at level 100, k at level 200).
Notation "'let*' ' p := m 'in' k" := (mbind_M m (λ x, match x with p => k end))
  (at level 200, p pattern, m at level 100, k at level 200).

(* ------------------------------------------------------------------ *)
(** ** [scrape_fenwick_shots] *)

(** The dict appended to [rows]. *)
Record shot_record := mkShot {
  game_id : Z;
  team_id : Z;
  home : Z;
  home_def_side : string;
  last_play : option string;
  rebound : Z;
  rush : Z;
  home_skaters : Z;
  away_skaters : Z;
  x_coord : Z;
  y_coord : Z;
  shooter_id : Z;
  shooter : string;
  position : option string;
  shoots : option string;
  career_shooting_pct : option float;
  goalie_id : option Z;
  goalie : option string;
  goalie_catches : option string;
  career_save_pct : option float;
  shot_type : option string;
  zone : option string;
  shot_class : string;
  danger_zone : string;
}.

(** [play["situationCode"][i]]; raises when the key or the index is missing. *)
Definition sc_char (p : play) (i : nat) : option ascii :=
  sc ← situationCode p; String.get i sc.

(** [int(play["situationCode"][i])] *)
Definition sc_int (p : play) (i : nat) : option Z :=
  c ← sc_char p i; py_int (String c EmptyString).

Definition fenwick_types : list string := ["missed-shot"; "goal"; "shot-on-goal"].

(** The body of the [try] block for the event [play] at index [idx] of
    [pbp]; [Some None] is a [continue]. *)
Definition process_play (prov : provider) (game_id home_id away_id : Z)
    (pbp : list play) (idx : nat) (p : play) : M (option shot_record) :=
  let* pd := lift (play_details p) in
  let* team_id := lift (eventOwnerTeamId pd) in
  let home := if Z.eqb team_id home_id then 1 else 0 in
  let away := if Z.eqb team_id away_id then 1 else 0 in
  let* home_side := lift (homeTeamDefendingSide p) in
  let* skip_home :=
    (if Z.eqb home 1 then
       let* c := lift (sc_char p 0) in mret_M (bool_decide (c = "0"%char))
     else mret_M false) in
  let* skip :=
    (if skip_home then mret_M true
     else if Z.eqb away 1 then
       let* c := lift (sc_char p 3) in mret_M (bool_decide (c = "0"%char))
     else mret_M false) in
  if skip then mret_M None else
  let shooter_id_opt :=
    if bool_decide (typeDescKey p = "goal") then scoringPlayerId pd
    else shootingPlayerId pd in
  match shooter_id_opt with
  | None => mret_M None
  | Some shooter_id =>
      let* '(shooter, shooter_stats) := get_player_stats prov shooter_id in
      let prev_play := if (0 <? idx)%nat then pbp !! (idx - 1)%nat else None in
      let* rebound := lift (is_rebound p prev_play) in
      let* rush := lift (is_rush p prev_play) in
      match xCoord pd, yCoord pd with
      | Some x, Some y =>
          let danger := get_danger_zone x y in
          let* home_skaters := lift (sc_int p 2) in
          let* away_skaters := lift (sc_int p 1) in
          let goalie_id := goalieInNetId pd in
          (* if goalie_id: ... else: goalie = None; goalie_stats = [None]*3 *)
          let* '(goalie, goalie_stats) :=
            (match goalie_id with
             | Some g =>
                 if Z.eqb g 0 then mret_M (None, mkStats None None None)
                 else let* '(gn, gs) := get_player_stats prov g in mret_M (Some gn, gs)
             | None => mret_M (None, mkStats None None None)
             end) in
          mret_M (Some {|
            game_id := game_id; team_id := team_id; home := home;
            home_def_side := home_side;
            last_play := typeDescKey <$> prev_play;
            rebound := rebound; rush := rush;
            home_skaters := home_skaters; away_skaters := away_skaters;
            x_coord := x; y_coord := y;
            shooter_id := shooter_id; shooter := shooter;
            position := st_position shooter_stats;
            shoots := st_hand shooter_stats;
            career_shooting_pct := st_pct shooter_stats;
            goalie_id := goalie_id; goalie := goalie;
            goalie_catches := st_hand goalie_stats;
            career_save_pct := st_pct goalie_stats;
            shot_type := shotType pd; zone := zoneCode pd;
            shot_class := typeDescKey p; danger_zone := danger |})
      | _, _ => mret_M None
      end
  end.

(** One iteration of the inner loop: the type filter, then the [try]
    block, whose exceptions are logged and skipped. *)
Definition process_event (prov : provider) (game_id home_id away_id : Z)
    (pbp : list play) (idx : nat) (p : play) (st : scraper_state)
  : scraper_state * option shot_record :=
  if bool_decide (typeDescKey p ∈ fenwick_types) then
    match process_play prov game_id home_id away_id pbp idx p st with
    | (st', Some (Some row)) => (st', Some row)
    | (st', _) => (st', None)
    end
  else (st, None).

(** [for idx, play in enumerate(pbp)], from index [idx] on. *)
Fixpoint scan_plays (prov : provider) (game_id home_id away_id : Z)
    (pbp : list play) (idx : nat) (ps : list play) (st : scraper_state)
    (rows : list shot_record) : scraper_state * list shot_record :=
  match ps with
  | [] => (st, rows)
  | p :: ps' =>
      let '(st', r) := process_event prov game_id home_id away_id pbp idx p st in
      scan_plays prov game_id home_id away_id pbp (S idx) ps' st'
        (match r with Some row => rows ++ [row] | None => rows end)
  end.

(** [self.client.game_center.play_by_play(game_id=...)]: the fields read
    outside the [try] block. *)
Record game_data := mkGame {
  homeTeam_id : Z;
  awayTeam_id : Z;
  plays : list play;
}.

(** The play-by-play provider; [None] when the call raises. *)
Definition fetcher := Z → option game_data.

Fixpoint scrape_games (prov : provider) (fetch : fetcher) (gids : list Z)
    (st : scraper_state) (rows : list shot_record)
  : scraper_state * list shot_record :=
  match gids with
  | [] => (st, rows)
  | g :: gs =>
      match fetch g with
      | None => (st, [])   (* return pd.DataFrame() *)
      | Some gd =>
          let '(st', rows') :=
            scan_plays prov g (homeTeam_id gd) (awayTeam_id gd) (plays gd) 0
              (plays gd) st rows in
          scrape_games prov fetch gs st' rows'
      end
  end.

Definition scrape_fenwick_shots (prov : provider) (fetch : fetcher) (gids : list Z)
    (st : scraper_state) : scraper_state * list shot_record :=
  scrape_games prov fetch gids st [].

(* ------------------------------------------------------------------ *)
(** ** [XGProcessor] *)

(** The columns left by [processFenwick] (distance and shot_angle, pure
    geometry that nothing below depends on, are not modelled). *)
Module Features.
Record feature_row := mkFeature {
  home : Z;
  last_play : option string;
  rebound : Z;
  rush : Z;
  home_skaters : Z;
  away_skaters : Z;
  position : option string;
  career_shooting_pct : option float;
  career_save_pct : option float;
  shot_type : option string;
  shot_class : string;
  danger_zone : string;
  shot_on_glove : option string;
  danger_numeric : option Z;
  shot_value : option Z;
  situation : string;
}.
End Features.

(** [df["shoots"] + df["goalie_catches"]] on object columns.  Element-wise
    [str + None] raises [TypeError]; pandas then falls back to a masked
    operation ([_na_arithmetic_op] / [_masked_arith_op] in
    [pandas.core.ops.array_ops]) that adds only where both operands are
    non-null and leaves NaN elsewhere. *)
Definition object_add (a b : option string) : option string :=
  match a, b with
  | Some x, Some y => Some (x +:+ y)
  | _, _ => None
  end.

(** [self.danger_map] used through [Series.map]: NaN off the map. *)
Definition danger_map (d : string) : option Z :=
  if bool_decide (d = "low") then Some 1
  else if bool_decide (d = "med") then Some 2
  else if bool_decide (d = "high") then Some 3
  else None.

(** [add_shot_value]: NaN propagates through [+]. *)
Definition shot_value_of (r : shot_record) : option Z :=
  (λ n, n + rebound r + rush r) <$> danger_map (danger_zone r).

(** [add_situation] *)
Definition situation_of (r : shot_record) : string :=
  let shooting := if Z.eqb (home r) 1 then home_skaters r else away_skaters r in
  let defending := if Z.eqb (home r) 1 then away_skaters r else home_skaters r in
  if shooting >? defending then "PP"
  else if shooting <? defending then "SH"
  else "EV".

(** The row filters of [processFenwick]: at least 3 skaters on each side,
    and [goalie_id] not null. *)
Definition keep_row (r : shot_record) : bool :=
  (3 <=? home_skaters r) && (3 <=? away_skaters r)
  && bool_decide (is_Some (goalie_id r)).

(** The derived columns of a kept row, and the columns [drop] leaves. *)
Definition derive_row (r : shot_record) (shot_on_glove : option string)
  : Features.feature_row :=
  {| Features.home := home r; Features.last_play := last_play r;
     Features.rebound := rebound r; Features.rush := rush r;
     Features.home_skaters := home_skaters r;
     Features.away_skaters := away_skaters r;
     Features.position := position r;
     Features.career_shooting_pct := career_shooting_pct r;
     Features.career_save_pct := career_save_pct r;
     Features.shot_type := shot_type r; Features.shot_class := shot_class r;
     Features.danger_zone := danger_zone r;
     Features.shot_on_glove := shot_on_glove;
     Features.danger_numeric := danger_map (danger_zone r);
     Features.shot_value := shot_value_of r;
     Features.situation := situation_of r |}.

(** [XGProcessor.processFenwick] on the table [pd.DataFrame(rows)] built by
    the scraper.  A table built from no rows has no columns, so
    [df["shoots"]] raises [KeyError] on it ([None]). *)
Definition processFenwick (df : list shot_record) : option (list Features.feature_row) :=
  match df with
  | [] => None
  | _ =>
      (* df["shot_on_glove"] = df["shoots"] + df["goalie_catches"] *)
      let with_glove := map (λ r, (r, object_add (shoots r) (goalie_catches r))) df in
      let kept := List.filter (λ rg, keep_row rg.1) with_glove in
      Some (map (λ rg, derive_row rg.1 rg.2) kept)
  end.

(* ------------------------------------------------------------------ *)
(** ** [NHLShotScraper.get_game_ids] *)

(** The two fields read from each game of
    [self.client.schedule.team_season_schedule(...)["games"]]. *)
Record team_game := mkTeamGame {
  tg_id : Z;
  tg_gameType : Z;
}.

(** The schedule provider; [None] when the call raises. *)
Definition schedule := string → Z → option (list team_game).

(** [if abbrev == "UTA" and season < 20242025: abbrev = "ARI"] *)
Definition team_abbrev (abbrev : string) (season : Z) : string :=
  if bool_decide (abbrev = "UTA") && (season <? 20242025) then "ARI" else abbrev.

(** [self.game_ids.update(game["id"] for game in games if game["gameType"] != 1)] *)
Fixpoint update_game_ids (games : list team_game) (ids : gset Z) : gset Z :=
  match games with
  | [] => ids
  | g :: gs =>
      update_game_ids gs (if negb (Z.eqb (tg_gameType g) 1) then {[tg_id g]} ∪ ids else ids)
  end.

(** The loop over [product(team_abbrs, self.seasons)]; the flag is [false]
    when a schedule call raised, with the ids gathered so far kept in
    [self.game_ids]. *)
Fixpoint collect_game_ids (sched : schedule) (pairs : list (string * Z)) (ids : gset Z)
  : gset Z * bool :=
  match pairs with
  | [] => (ids, true)
  | (abbrev, season) :: rest =>
      match sched (team_abbrev abbrev season) season with
      | Some games => collect_game_ids sched rest (update_game_ids games ids)
      | None => (ids, false)
      end
  end.

(** The teams returned by [self.client.teams.teams()], each given by its
    ["abbr"] field ([None] when the key is missing). *)
Definition team_entry := option string.

(** [team_abbrs = [team["abbr"] for team in teams]]: [None] when a team has
    no ["abbr"] (KeyError). *)
Fixpoint read_abbrs (teams : list team_entry) : option (list string) :=
  match teams with
  | [] => Some []
  | t :: ts => a ← t; rest ← read_abbrs ts; Some (a :: rest)
  end.

(** [get_game_ids], with [teams_call] the answer of
    [self.client.teams.teams()] ([None] when the call raises) and
    [game_ids] the set [self.game_ids] before the call.  [list(set)] has no
    specified order; [elements] stands for it. *)
Definition get_game_ids (teams_call : option (list team_entry)) (sched : schedule)
    (seasons : list Z) (game_ids : gset Z) : gset Z * option (list Z) :=
  match teams_call ≫= read_abbrs with
  | None => (game_ids, None)
  | Some team_abbrs =>
      let '(ids, ok) := collect_game_ids sched (list_prod team_abbrs seasons) game_ids in
      (ids, if ok then Some (elements ids) else None)
  end.

(* ------------------------------------------------------------------ *)
(** ** A concrete game *)

Definition skater_info : player_info :=
  mkInfo (Some "Ann") (Some "Lee") (Some "C") (Some (Some "L"))
         (Some (mkCareer None (Some 0.12%float))).

Definition goalie_info : player_info :=
  mkInfo (Some "Bo") (Some "Kim") (Some "G") (Some (Some "R"))
         (Some (mkCareer (Some 0.91%float) None)).

(** Player 8 is a skater, 30 a goaltender; every other id fails. *)
Definition sample_provider : provider :=
  λ pid, if Z.eqb pid 8 then Some skater_info
         else if Z.eqb pid 30 then Some goalie_info else None.

(** A shot on goal by team 1 (the home team) at (80, 0). *)
Definition sample_shot (sc : string) (goalie : option Z) : play :=
  mkPlay "shot-on-goal" "10:02"
    (Some (mkDetails (Some 1) (Some "O") None (Some 8) (Some 80) (Some 0)
                     (Some "wrist") goalie))
    (Some "left") (Some sc).

Definition sample_miss : play :=
  mkPlay "missed-shot" "10:00"
    (Some (mkDetails (Some 1) (Some "O") None (Some 8) (Some 85) (Some 3)
                     (Some "slap") (Some 30)))
    (Some "left") (Some "1551").

Definition sample_game (sc : string) (goalie : option Z) : game_data :=
  mkGame 1 2 [sample_miss; sample_shot sc goalie].

Definition sample_fetch (sc : string) (goalie : option Z) : fetcher :=
  λ gid, if Z.eqb gid 100 then Some (sample_game sc goalie) else None.

(** A hit by team 2 in the neutral zone. *)
Definition sample_neutral_hit : play :=
  mkPlay "hit" "10:00"
    (Some (mkDetails (Some 2) (Some "N") None None (Some 0) (Some 10) None None))
    None (Some "1551").

(** A schedule: Utah's games before 2024-25 are filed under "ARI"; game 2
    is a preseason game (type 1). *)
Definition sample_schedule : schedule :=
  λ abbrev season,
    if bool_decide (abbrev = "ARI") && (season =? 20232024) then
      Some [mkTeamGame 1 2; mkTeamGame 2 1]
    else if bool_decide (abbrev = "UTA") && (season =? 20242025) then
      Some [mkTeamGame 3 2]
    else if bool_decide (abbrev = "BOS") then
      Some [mkTeamGame 1 2; mkTeamGame 4 3]
    else None.

(* ------------------------------------------------------------------ *)
(** ** Notions used by the statements below *)

(** The provider calls made for one player id. *)
Definition calls_for (pid : Z) (calls : list (Z * bool)) : list (Z * bool) :=
  List.filter (λ c, Z.eqb c.1 pid) calls.

(** Every id of [player_dict] is also in [player_stats_cache]; the two
    dicts are always updated together. *)
Definition cache_ok (st : scraper_state) : Prop :=
  forall i, is_Some (player_dict st !! i) -> is_Some (player_stats_cache st !! i).

(** The two dicts hold the same player ids. *)
Definition dicts_in_sync (st : scraper_state) : Prop :=
  forall i, is_Some (player_dict st !! i) <-> is_Some (player_stats_cache st !! i).

(** The number of events in the games of [gids], up to the first game
    whose fetch fails. *)
Fixpoint total_events (fetch : fetcher) (gids : list Z) : nat :=
  match gids with
  | [] => 0
  | g :: gs =>
      match fetch g with
      | Some gd => List.length (plays gd) + total_events fetch gs
      | None => 0
      end
  end.

(** The three labels of the danger-zone classifier. *)
Definition danger_label (d : string) : Prop := d = "low" \/ d = "med" \/ d = "high".

(** The integers [lo], ..., [lo + n - 1]. *)
Definition zrange (lo : Z) (n : nat) : list Z := map (λ k, lo + Z.of_nat k) (seq 0 n).

(** The ASCII digits. *)
Definition digit_chars : list ascii :=
  ["0"; "1"; "2"; "3"; "4"; "5"; "6"; "7"; "8"; "9"]%char.

(** The [MM:SS] timestamps of the spec: five characters, digits around a
    colon. *)
Definition mmss_wellformed (s : string) : bool :=
  let digit_at i := match String.get i s with Some c => py_is_digit c | None => false end in
  (String.length s =? 5)%nat && digit_at 0%nat && digit_at 1%nat
  && bool_decide (String.get 2 s = Some ":"%char) && digit_at 3%nat && digit_at 4%nat.

(** The number of seconds [MM*60 + SS] such a timestamp denotes. *)
Definition mmss_seconds (s : string) : Z :=
  let d i := match String.get i s with Some c => digit_value c | None => 0 end in
  (d 0%nat * 10 + d 1%nat) * 60 + d 3%nat * 10 + d 4%nat.

(** Per player id: while the id is not cached, every call made for it
    failed; once it is cached, exactly one successful call was made for
    it, last. *)
Definition cache_calls_inv (pid : Z) (st : scraper_state) : Prop :=
  (player_dict st !! pid = None /\
     exists k, calls_for pid (provider_calls st) = repeat (pid, false) k) \/
  (is_Some (player_dict st !! pid) /\
     exists k, calls_for pid (provider_calls st) = repeat (pid, false) k ++ [(pid, true)]).

(* ------------------------------------------------------------------ *)
(** ** Integer ranges checked by evaluation *)

Lemma elem_zrange (lo : Z) (n : nat) (a : Z) :
  lo <= a < lo + Z.of_nat n -> In a (zrange lo n).
Proof.
  intros Ha. unfold zrange. apply in_map_iff.
  exists (Z.to_nat (a - lo)). split; [lia|]. apply in_seq. lia.
Qed.

(** The double comparison agrees with the exact one on every integer
    point of the band [69 <= x_abs <= 89], [6 < y_abs <= 22]. *)
Lemma boundary_band_exact (xa ya : Z) :
  69 <= xa <= 89 -> 6 < ya <= 22 ->
  PrimFloat.leb (float_of_Z ya) (y_boundary xa)
  = Qle_bool (inject_Z ya) (- (8 # 10) * inject_Z xa + (772 # 10)).
Proof.
  intros Hx Hy.
  assert (Hall : forallb (λ a, forallb (λ b,
             Bool.eqb (PrimFloat.leb (float_of_Z b) (y_boundary a))
                      (Qle_bool (inject_Z b) (- (8 # 10) * inject_Z a + (772 # 10))))
             (zrange 7 16)) (zrange 69 21) = true) by (vm_compute; reflexivity).
  rewrite forallb_forall in Hall.
  specialize (Hall xa (elem_zrange 69 21 xa ltac:(simpl; lia))).
  rewrite forallb_forall in Hall.
  specialize (Hall ya (elem_zrange 7 16 ya ltac:(simpl; lia))).
  now apply Bool.eqb_prop in Hall.
Qed.

(* ------------------------------------------------------------------ *)
(** ** Danger zones *)

(** C2 (as stated): |x| >= 69 with no upper bound and |y| <= 6 gives
    "high".  False: past the goal line (|x| > 89) the shot is "low". *)
Lemma danger_high_unbounded_fails :
  ~ (forall x y : Z, 69 <= Z.abs x -> Z.abs y <= 6 -> get_danger_zone x y = "high").
Proof.
  intros H. specialize (H 90 0 ltac:(simpl; lia) ltac:(simpl; lia)).
  vm_compute in H. discriminate H.
Qed.

(** C2 (amended): for 69 <= |x| <= 89 and |y| <= 6 the classifier returns
    "high"; for |x| > 89 it returns "low" whatever y is. *)
Theorem danger_high_zone (x y : Z) :
  (69 <= Z.abs x <= 89 -> Z.abs y <= 6 -> get_danger_zone x y = "high") /\
  (89 < Z.abs x -> get_danger_zone x y = "low").
Proof.
  unfold get_danger_zone. split.
  - intros Hx Hy.
    replace (69 <=? Z.abs x) with true by lia.
    replace (Z.abs x <=? 89) with true by lia.
    replace (Z.abs y <=? 6) with true by lia. reflexivity.
  - intros Hx.
    replace (Z.abs x <=? 89) with false by lia.
    replace (Z.abs x <? 69) with false by lia.
    now rewrite !andb_false_r, !andb_false_l.
Qed.

Lemma danger_high_zone_witness :
  get_danger_zone (-75) 4 = "high" /\ get_danger_zone 95 0 = "low".
Proof.
  split.
  - apply (proj1 (danger_high_zone (-75) 4)); simpl; lia.
  - apply (proj2 (danger_high_zone 95 0)); simpl; lia.
Defined.

(** C3: in the band 69 <= |x| <= 89, 6 < |y| <= 22 the result is "med"
    exactly when |y| <= -0.8 |x| + 77.2 (exact arithmetic) and "low"
    otherwise; for 44 <= |x| < 69 it is "med" when |y| <= 22 and "low" when
    |y| > 22. *)
Theorem danger_med_low_zones (x y : Z) :
  (69 <= Z.abs x <= 89 -> 6 < Z.abs y <= 22 ->
   get_danger_zone x y =
     if Qle_bool (inject_Z (Z.abs y)) (- (8 # 10) * inject_Z (Z.abs x) + (772 # 10))
     then "med" else "low") /\
  (44 <= Z.abs x < 69 -> Z.abs y <= 22 -> get_danger_zone x y = "med") /\
  (44 <= Z.abs x < 69 -> 22 < Z.abs y -> get_danger_zone x y = "low").
Proof.
  unfold get_danger_zone. split; [|split].
  - intros Hx Hy.
    replace (69 <=? Z.abs x) with true by lia.
    replace (Z.abs x <=? 89) with true by lia.
    replace (Z.abs y <=? 6) with false by lia.
    replace (6 <? Z.abs y) with true by lia.
    replace (Z.abs y <=? 22) with true by lia. simpl.
    now rewrite boundary_band_exact.
  - intros Hx Hy.
    replace (69 <=? Z.abs x) with false by lia.
    replace (44 <=? Z.abs x) with true by lia.
    replace (Z.abs x <? 69) with true by lia.
    replace (Z.abs y <=? 22) with true by lia. reflexivity.
  - intros Hx Hy.
    replace (69 <=? Z.abs x) with false by lia.
    replace (Z.abs y <=? 22) with false by lia.
    now rewrite !andb_false_r.
Qed.

Lemma danger_med_low_zones_witness :
  get_danger_zone 74 18 = "med" /\ get_danger_zone (-74) 19 = "low" /\
  get_danger_zone 50 (-22) = "med" /\ get_danger_zone (-60) 30 = "low".
Proof.
  split; [|split; [|split]].
  - rewrite (proj1 (danger_med_low_zones 74 18)); [vm_compute; reflexivity | simpl; lia ..].
  - rewrite (proj1 (danger_med_low_zones (-74) 19)); [vm_compute; reflexivity | simpl; lia ..].
  - apply (proj1 (proj2 (danger_med_low_zones 50 (-22)))); simpl; lia.
  - apply (proj2 (proj2 (danger_med_low_zones (-60) 30))); simpl; lia.
Defined.

(* ------------------------------------------------------------------ *)
(** ** Rebound and rush tests *)

Lemma elem_of_pair (x a b : string) : x ∈ [a; b] <-> x = a \/ x = b.
Proof. rewrite elem_of_cons, list_elem_of_singleton. tauto. Qed.

Lemma is_rebound_prev (p q : play) (d : Z) :
  second_diff (timeInPeriod p) (timeInPeriod q) = Some d ->
  is_rebound p (Some q) =
    Some (if (bool_decide (typeDescKey q = "blocked-shot") && (d <=? 2))
             || (bool_decide (typeDescKey q ∈ ["missed-shot"; "shot-on-goal"]) && (d <=? 3))
          then 1 else 0).
Proof.
  intros Hd. unfold is_rebound. rewrite Hd. simpl.
  destruct (bool_decide (typeDescKey q = "blocked-shot") && (d <=? 2)); [reflexivity|].
  simpl. now destruct (_ && _).
Qed.

(** C4: with no preceding event the rebound test gives 0; otherwise (the
    timestamps being readable) it gives 1 exactly when the preceding event
    is a blocked shot at most 2 s earlier or a missed shot or shot on goal
    at most 3 s earlier, and 0 in every other case. *)
Theorem is_rebound_correct (p : play) (prev_play : option play) :
  (prev_play = None -> is_rebound p prev_play = Some 0) /\
  ((forall q, prev_play = Some q -> is_Some (second_diff (timeInPeriod p) (timeInPeriod q))) ->
   let cond := exists q d, prev_play = Some q /\
                 second_diff (timeInPeriod p) (timeInPeriod q) = Some d /\
                 ((typeDescKey q = "blocked-shot" /\ d <= 2) \/
                  ((typeDescKey q = "missed-shot" \/ typeDescKey q = "shot-on-goal") /\ d <= 3)) in
   (is_rebound p prev_play = Some 1 <-> cond) /\
   (is_rebound p prev_play = Some 0 <-> ~ cond)).
Proof.
  split; [intros ->; reflexivity|].
  intros Ht cond. subst cond. destruct prev_play as [q|].
  - destruct (Ht q eq_refl) as [d Hd]. rewrite (is_rebound_prev p q d Hd).
    assert (Hb : ((bool_decide (typeDescKey q = "blocked-shot") && (d <=? 2))
             || (bool_decide (typeDescKey q ∈ ["missed-shot"; "shot-on-goal"]) && (d <=? 3))) = true
             <-> (typeDescKey q = "blocked-shot" /\ d <= 2) \/
                 ((typeDescKey q = "missed-shot" \/ typeDescKey q = "shot-on-goal") /\ d <= 3)).
    { rewrite orb_true_iff, !andb_true_iff, !bool_decide_eq_true, !Z.leb_le, elem_of_pair.
      tauto. }
    assert (Hc : (exists q' d', Some q = Some q' /\
                 second_diff (timeInPeriod p) (timeInPeriod q') = Some d' /\
                 ((typeDescKey q' = "blocked-shot" /\ d' <= 2) \/
                  ((typeDescKey q' = "missed-shot" \/ typeDescKey q' = "shot-on-goal") /\ d' <= 3)))
             <-> (typeDescKey q = "blocked-shot" /\ d <= 2) \/
                 ((typeDescKey q = "missed-shot" \/ typeDescKey q = "shot-on-goal") /\ d <= 3)).
    { split.
      - intros (q' & d' & Hq & Hd' & H). injection Hq as <-.
        rewrite Hd in Hd'. injection Hd' as <-. exact H.
      - intros H. exists q, d. auto. }
    rewrite Hc, <- Hb.
    destruct (_ || _); split; split; intros H; try reflexivity; try congruence; tauto.
  - split; split; intros H; try reflexivity; try discriminate.
    + destruct H as (q & d & Hq & _). discriminate.
    + intros (q & d & Hq & _). discriminate.
Qed.

Lemma is_rebound_correct_witness :
  is_rebound (sample_shot "1551" (Some 30)) (Some sample_miss) = Some 1.
Proof.
  apply (proj1 (proj2 (is_rebound_correct (sample_shot "1551" (Some 30)) (Some sample_miss))
                  ltac:(intros q Hq; injection Hq as <-; vm_compute; eexists; reflexivity))).
  exists sample_miss, 2. split; [reflexivity|]. split; [vm_compute; reflexivity|].
  right. split; [left; reflexivity | lia].
Defined.

Lemma is_rush_live (p q : play) (d : Z) (pd : details) :
  typeDescKey q ∉ stoppages ->
  second_diff (timeInPeriod p) (timeInPeriod q) = Some d -> d <= 4 ->
  play_details p = Some pd ->
  is_rush p (Some q) =
    match prev_zoneCode q with
    | None => Some 0
    | Some z =>
        if bool_decide (z = "N") then Some 1
        else if bool_decide (z = "D")
                && bool_decide (prev_eventOwnerTeamId q = eventOwnerTeamId pd) then Some 1
        else if bool_decide (z = "O")
                && negb (bool_decide (prev_eventOwnerTeamId q = eventOwnerTeamId pd)) then Some 1
        else Some 0
    end.
Proof.
  intros Hs Hd Hle Hp. unfold is_rush.
  rewrite bool_decide_eq_false_2 by exact Hs. rewrite Hd. simpl.
  replace (d >? 4) with false by lia. rewrite Hp. reflexivity.
Qed.

(** C5: the rush test gives 0 with no preceding event, after a stoppage
    class event, or more than 4 s after the preceding event; otherwise
    (timestamps readable, the shot carrying its details) it gives 0 when
    the preceding zone is unknown, and 1 exactly when the preceding event
    was in the neutral zone, in the defensive zone owned by the shooting
    team, or in the offensive zone owned by another team. *)
Theorem is_rush_correct (p : play) (prev_play : option play) :
  (prev_play = None -> is_rush p prev_play = Some 0) /\
  (forall q, prev_play = Some q -> typeDescKey q ∈ stoppages -> is_rush p prev_play = Some 0) /\
  (forall q d, prev_play = Some q ->
     second_diff (timeInPeriod p) (timeInPeriod q) = Some d -> 4 < d ->
     is_rush p prev_play = Some 0) /\
  (forall q d pd, prev_play = Some q -> typeDescKey q ∉ stoppages ->
     second_diff (timeInPeriod p) (timeInPeriod q) = Some d -> d <= 4 ->
     play_details p = Some pd ->
     let cond := prev_zoneCode q = Some "N" \/
                 (prev_zoneCode q = Some "D" /\ prev_eventOwnerTeamId q = eventOwnerTeamId pd) \/
                 (prev_zoneCode q = Some "O" /\ prev_eventOwnerTeamId q <> eventOwnerTeamId pd) in
     (prev_zoneCode q = None -> is_rush p prev_play = Some 0) /\
     (is_rush p prev_play = Some 1 <-> cond) /\
     (is_rush p prev_play = Some 0 <-> ~ cond)).
Proof.
  split; [intros ->; reflexivity|].
  split; [intros q -> Hs; unfold is_rush; now rewrite bool_decide_eq_true_2 by exact Hs|].
  split.
  { intros q d -> Hd Hgt. unfold is_rush.
    destruct (bool_decide (typeDescKey q ∈ stoppages)); [reflexivity|].
    rewrite Hd. simpl. replace (d >? 4) with true by lia. reflexivity. }
  intros q d pd -> Hs Hd Hle Hp cond. subst cond.
  rewrite (is_rush_live p q d pd Hs Hd Hle Hp).
  split; [intros ->; reflexivity|].
  destruct (prev_zoneCode q) as [z|].
  - assert (Hz : forall a b : string, Some a = Some b <-> a = b)
      by (intros a b; split; [congruence | now intros ->]).
    rewrite !Hz.
    repeat case_bool_decide; simpl;
      split; split; intros Hi; try reflexivity; try discriminate; subst;
      try tauto; try congruence.
  - split; split; intros H; try reflexivity; try discriminate;
      intuition discriminate.
Qed.

Lemma is_rush_correct_witness :
  is_rush (sample_shot "1551" (Some 30)) (Some sample_neutral_hit) = Some 1 /\
  is_rush (sample_shot "1551" (Some 30)) (Some sample_miss) = Some 0.
Proof.
  split.
  - destruct (is_rush_correct (sample_shot "1551" (Some 30)) (Some sample_neutral_hit))
      as (_ & _ & _ & H).
    apply (H sample_neutral_hit 2 _ eq_refl ltac:(vm_compute; intros Hc; inversion Hc; subst;
             repeat match goal with Hl : _ ∈ _ |- _ => inversion Hl; subst; clear Hl end)
             ltac:(vm_compute; reflexivity) ltac:(lia) eq_refl).
    left. reflexivity.
  - destruct (is_rush_correct (sample_shot "1551" (Some 30)) (Some sample_miss))
      as (_ & _ & _ & H).
    apply (H sample_miss 2 _ eq_refl ltac:(vm_compute; intros Hc; inversion Hc; subst;
             repeat match goal with Hl : _ ∈ _ |- _ => inversion Hl; subst; clear Hl end)
             ltac:(vm_compute; reflexivity) ltac:(lia) eq_refl).
    vm_compute. intros [Hn | [[Hn _] | [_ Ho]]]; try discriminate. apply Ho. reflexivity.
Defined.

(* ------------------------------------------------------------------ *)
(** ** Time differences *)

Lemma ascii_forallb (P : ascii -> bool) :
  forallb (λ n, P (ascii_of_nat n)) (seq 0 256) = true -> forall c, P c = true.
Proof.
  intros H c. rewrite forallb_forall in H.
  rewrite <- (ascii_nat_embedding c). apply H.
  apply in_seq. pose proof (nat_ascii_bounded c). lia.
Qed.

Lemma py_is_digit_in (c : ascii) : py_is_digit c = true -> In c digit_chars.
Proof.
  intros Hc.
  assert (H : forall c, implb (py_is_digit c) (existsb (Ascii.eqb c) digit_chars) = true)
    by (apply ascii_forallb; vm_compute; reflexivity).
  specialize (H c). rewrite Hc in H. cbn [implb] in H.
  apply existsb_exists in H as (d & Hd & Heq). apply Ascii.eqb_eq in Heq. now subst.
Qed.

Lemma py_int_one_digit (a : ascii) :
  py_is_digit a = true -> py_int (String a EmptyString) = Some (digit_value a).
Proof.
  intros Ha. apply py_is_digit_in in Ha.
  assert (H : forallb (λ a, bool_decide (py_int (String a EmptyString) = Some (digit_value a)))
                digit_chars = true) by (vm_compute; reflexivity).
  rewrite forallb_forall in H. specialize (H a Ha). now apply bool_decide_eq_true in H.
Qed.

Lemma py_int_two_digits (a b : ascii) :
  py_is_digit a = true -> py_is_digit b = true ->
  py_int (String a (String b EmptyString)) = Some (digit_value a * 10 + digit_value b).
Proof.
  intros Ha Hb. apply py_is_digit_in in Ha, Hb.
  assert (H : forallb (λ a, forallb (λ b,
                bool_decide (py_int (String a (String b EmptyString))
                             = Some (digit_value a * 10 + digit_value b)))
                digit_chars) digit_chars = true) by (vm_compute; reflexivity).
  rewrite forallb_forall in H. specialize (H a Ha).
  rewrite forallb_forall in H. specialize (H b Hb). now apply bool_decide_eq_true in H.
Qed.

Lemma mmss_wellformed_shape (s : string) :
  mmss_wellformed s = true ->
  exists a b c d, s = String a (String b (String ":" (String c (String d EmptyString))))
    /\ py_is_digit a = true /\ py_is_digit b = true
    /\ py_is_digit c = true /\ py_is_digit d = true.
Proof.
  intros H.
  destruct s as [|a [|b [|col [|c [|d [|e s]]]]]]; try discriminate H.
  unfold mmss_wellformed in H. simpl in H.
  rewrite !andb_true_iff, bool_decide_eq_true in H.
  destruct H as [[[[Ha Hb] Hcol] Hc] Hd]. inversion Hcol; subst.
  exists a, b, c, d. auto.
Qed.

(** C9 (as stated): every malformed input is rejected.  False: ["10:5"]
    (four characters) and ["10x05"] (no colon) both give a value. *)
Lemma second_diff_accepts_malformed :
  ~ (forall t1 t2 : string,
       mmss_wellformed t1 = false \/ mmss_wellformed t2 = false ->
       second_diff t1 t2 = None).
Proof.
  intros H.
  assert (H1 := H "10:5" "10:05" (or_introl eq_refl)).
  vm_compute in H1. discriminate H1.
Qed.

(** C9 (amended): on two well-formed [MM:SS] strings [second_diff] returns
    the absolute difference in seconds; it reads only the slices [[0:2]]
    and [[3:5]] of each string (the separator and any further characters
    are never checked), and it fails exactly when Python's [int()] rejects
    one of those slices. *)
Theorem second_diff_behaviour (t1 t2 : string) :
  (mmss_wellformed t1 = true -> mmss_wellformed t2 = true ->
   second_diff t1 t2 = Some (Z.abs (mmss_seconds t2 - mmss_seconds t1))) /\
  (forall u1 u2 : string,
     py_slice u1 0 2 = py_slice t1 0 2 -> py_slice u1 3 5 = py_slice t1 3 5 ->
     py_slice u2 0 2 = py_slice t2 0 2 -> py_slice u2 3 5 = py_slice t2 3 5 ->
     second_diff u1 u2 = second_diff t1 t2) /\
  (second_diff t1 t2 = None <->
     py_int (py_slice t1 0 2) = None \/ py_int (py_slice t1 3 5) = None \/
     py_int (py_slice t2 0 2) = None \/ py_int (py_slice t2 3 5) = None).
Proof.
  split; [|split].
  - intros H1 H2.
    destruct (mmss_wellformed_shape t1 H1) as (a1 & b1 & c1 & d1 & -> & Ha1 & Hb1 & Hc1 & Hd1).
    destruct (mmss_wellformed_shape t2 H2) as (a2 & b2 & c2 & d2 & -> & Ha2 & Hb2 & Hc2 & Hd2).
    unfold second_diff, py_slice. simpl.
    rewrite (py_int_two_digits a1 b1), (py_int_two_digits c1 d1),
      (py_int_two_digits a2 b2), (py_int_two_digits c2 d2) by assumption.
    simpl. unfold mmss_seconds. simpl. f_equal. f_equal. lia.
  - intros u1 u2 H1 H2 H3 H4. unfold second_diff. now rewrite H1, H2, H3, H4.
  - unfold second_diff.
    destruct (py_int (py_slice t1 0 2)), (py_int (py_slice t1 3 5)),
      (py_int (py_slice t2 0 2)), (py_int (py_slice t2 3 5)); simpl;
      split; intros H; try discriminate; try reflexivity;
      first [tauto | repeat destruct H as [H|H]; discriminate].
Qed.

Lemma second_diff_behaviour_witness :
  second_diff "10:00" "10:04" = Some 4 /\ second_diff "10x05" "10:05abc" = second_diff "10:05" "10:05".
Proof.
  split.
  - apply (proj1 (second_diff_behaviour "10:00" "10:04")); vm_compute; reflexivity.
  - apply (proj1 (proj2 (second_diff_behaviour "10:05" "10:05"))); vm_compute; reflexivity.
Defined.

(* ------------------------------------------------------------------ *)
(** ** Game fetch failures *)

Lemma scrape_games_fetch_failure (prov : provider) (fetch : fetcher) (gids : list Z) :
  forall st rows, (exists g, In g gids /\ fetch g = None) ->
  snd (scrape_games prov fetch gids st rows) = [].
Proof.
  induction gids as [|g gs IH]; intros st rows (g' & Hin & Hf); [destruct Hin|].
  simpl. destruct (fetch g) as [gd|] eqn:Hg; [|reflexivity].
  destruct (scan_plays _ _ _ _ _ _ _ _ _) as [st' rows'].
  apply IH. exists g'. split; [|exact Hf].
  destruct Hin as [<-|Hin]; [congruence | exact Hin].
Qed.

(** C6: when fetching the play-by-play of any one of the requested games
    fails, [scrape_fenwick_shots] returns the empty table, whatever rows
    the games before it produced. *)
Theorem scrape_fetch_failure_empty (prov : provider) (fetch : fetcher)
    (gids : list Z) (st : scraper_state) :
  (exists g, In g gids /\ fetch g = None) ->
  snd (scrape_fenwick_shots prov fetch gids st) = [].
Proof. apply scrape_games_fetch_failure. Qed.

Lemma scrape_fetch_failure_empty_witness :
  List.length (snd (scrape_fenwick_shots sample_provider (sample_fetch "1551" (Some 30)) [100] init_state)) = 2%nat /\
  snd (scrape_fenwick_shots sample_provider (sample_fetch "1551" (Some 30)) [100; 101] init_state) = [].
Proof.
  split; [vm_compute; reflexivity|].
  apply scrape_fetch_failure_empty. exists 101. split; [simpl; tauto | reflexivity].
Defined.

(* ------------------------------------------------------------------ *)
(** ** The player statistics cache *)

Lemma cache_calls_inv_init (pid : Z) : cache_calls_inv pid init_state.
Proof. left. split; [reflexivity|]. exists 0%nat. reflexivity. Qed.

Lemma cache_calls_inv_step (prov : provider) (pid i : Z) (st : scraper_state) :
  cache_calls_inv pid st -> cache_calls_inv pid (fst (get_player_stats prov i st)).
Proof.
  intros Hinv. unfold get_player_stats.
  destruct (player_dict st !! i) as [name|] eqn:Hd.
  { destruct (player_stats_cache st !! i); exact Hinv. }
  unfold cache_calls_inv, calls_for in *.
  destruct (prov i ≫= stats_of_info) as [[name s]|]; simpl;
    rewrite List.filter_app; simpl.
  - destruct (Z.eqb_spec i pid) as [<-|Hne].
    + destruct Hinv as [[_ [k Hk]] | [Hs _]]; [|rewrite Hd in Hs; now destruct Hs].
      right. split; [rewrite lookup_insert_eq; eauto|]. exists k. now rewrite Hk.
    + rewrite lookup_insert_ne by congruence. now rewrite app_nil_r.
  - destruct (Z.eqb_spec i pid) as [<-|Hne].
    + destruct Hinv as [[Hn [k Hk]] | [Hs _]]; [|rewrite Hd in Hs; now destruct Hs].
      left. split; [exact Hn|]. exists (S k). rewrite Hk. simpl. now rewrite repeat_cons.
    + now rewrite app_nil_r.
Qed.

Lemma cache_calls_inv_run (prov : provider) (pid : Z) (ids : list Z) :
  forall st, cache_calls_inv pid st -> cache_calls_inv pid (run_lookups prov ids st).
Proof.
  induction ids as [|i ids IH]; intros st Hinv; [exact Hinv|].
  simpl. apply IH. now apply cache_calls_inv_step.
Qed.

(** C7 (as stated): at most one provider call per player id.  False: a
    lookup whose provider call fails stores nothing, so looking up the
    same id twice calls the provider twice. *)
Lemma player_cache_repeats_failed_call :
  calls_for 5 (provider_calls (run_lookups sample_provider [5; 5] init_state))
  = [(5, false); (5, false)].
Proof. vm_compute. reflexivity. Qed.

Lemma get_player_stats_dict_mono (prov : provider) (i j : Z) (st : scraper_state) :
  is_Some (player_dict st !! j) -> is_Some (player_dict (fst (get_player_stats prov i st)) !! j).
Proof.
  intros Hj. unfold get_player_stats.
  destruct (player_dict st !! i) as [name|] eqn:Hd.
  { destruct (player_stats_cache st !! i); exact Hj. }
  destruct (prov i ≫= stats_of_info) as [[name s]|]; simpl; [|exact Hj].
  destruct (decide (j = i)) as [->|Hne].
  - rewrite lookup_insert_eq. eauto.
  - now rewrite lookup_insert_ne by congruence.
Qed.

Lemma run_lookups_dict_mono (prov : provider) (ids : list Z) (j : Z) :
  forall st, is_Some (player_dict st !! j) -> is_Some (player_dict (run_lookups prov ids st) !! j).
Proof.
  induction ids as [|i ids IH]; intros st Hj; [exact Hj|].
  simpl. apply IH. now apply get_player_stats_dict_mono.
Qed.

(** While an id stays uncached, every lookup of it makes one failed call. *)
Lemma run_lookups_uncached_calls (prov : provider) (pid : Z) (ids : list Z) :
  forall st, player_dict (run_lookups prov ids st) !! pid = None ->
  calls_for pid (provider_calls (run_lookups prov ids st))
  = calls_for pid (provider_calls st) ++ repeat (pid, false) (count_occ Z.eq_dec ids pid).
Proof.
  induction ids as [|i ids IH]; intros st Hn; simpl; [now rewrite app_nil_r|].
  simpl in Hn. rewrite (IH _ Hn).
  assert (Hst : calls_for pid (provider_calls (fst (get_player_stats prov i st)))
                = calls_for pid (provider_calls st) ++
                  (if Z.eq_dec i pid then [(pid, false)] else [])).
  { unfold get_player_stats.
    destruct (player_dict st !! i) as [name|] eqn:Hd.
    - destruct (Z.eq_dec i pid) as [->|Hne].
      + exfalso. assert (Hs : is_Some (player_dict st !! pid)) by (rewrite Hd; eauto).
        apply (get_player_stats_dict_mono prov pid pid) in Hs.
        apply (run_lookups_dict_mono prov ids pid) in Hs. rewrite Hn in Hs. now destruct Hs.
      + destruct (player_stats_cache st !! i); simpl; now rewrite app_nil_r.
    - destruct (prov i ≫= stats_of_info) as [[name s]|] eqn:Hp; simpl;
        unfold calls_for; rewrite List.filter_app; simpl.
      + destruct (Z.eq_dec i pid) as [->|Hne].
        * exfalso.
          assert (Hs : is_Some (player_dict (fst (get_player_stats prov pid st)) !! pid)).
          { unfold get_player_stats. rewrite Hd, Hp. simpl. rewrite lookup_insert_eq. eauto. }
          apply (run_lookups_dict_mono prov ids pid) in Hs. rewrite Hn in Hs. now destruct Hs.
        * rewrite (proj2 (Z.eqb_neq i pid) Hne). now rewrite !app_nil_r.
      + destruct (Z.eq_dec i pid) as [->|Hne].
        * now rewrite Z.eqb_refl.
        * rewrite (proj2 (Z.eqb_neq i pid) Hne). now rewrite !app_nil_r. }
  rewrite Hst. destruct (Z.eq_dec i pid); simpl; now rewrite <- app_assoc.
Qed.

(** C7 (amended): a lookup of a cached id returns the stored pair and calls
    nothing; a lookup of an uncached id whose provider call fails (or whose
    answer lacks a field read) stores nothing and records one failed call,
    so the next lookup of that id calls the provider again; in a run of
    lookups from the empty cache the calls made for an id are, while it
    stays uncached, one failed call per lookup of it, and otherwise some
    failed calls followed by one successful call, after which no call for
    that id is made. *)
Theorem player_cache_calls (prov : provider) (ids : list Z) (pid : Z) :
  (forall st name s, player_dict st !! pid = Some name ->
     player_stats_cache st !! pid = Some s ->
     get_player_stats prov pid st = (st, Some (name, s))) /\
  (forall st st', player_dict st !! pid = None ->
     get_player_stats prov pid st = (st', None) ->
     player_dict st' = player_dict st /\ player_stats_cache st' = player_stats_cache st /\
     provider_calls st' = provider_calls st ++ [(pid, false)] /\
     exists b, provider_calls (fst (get_player_stats prov pid st'))
               = provider_calls st' ++ [(pid, b)]) /\
  ((player_dict (run_lookups prov ids init_state) !! pid = None /\
    calls_for pid (provider_calls (run_lookups prov ids init_state))
      = repeat (pid, false) (count_occ Z.eq_dec ids pid)) \/
   (is_Some (player_dict (run_lookups prov ids init_state) !! pid) /\
    exists k, calls_for pid (provider_calls (run_lookups prov ids init_state))
                = repeat (pid, false) k ++ [(pid, true)])).
Proof.
  split; [|split].
  - intros st name s Hd Hs. unfold get_player_stats. now rewrite Hd, Hs.
  - intros st st' Hn H. unfold get_player_stats in H |- *. rewrite Hn in H.
    destruct (prov pid ≫= stats_of_info) as [[name s]|] eqn:Hp; [discriminate H|].
    injection H as <-. simpl. split; [reflexivity|]. split; [reflexivity|].
    split; [reflexivity|]. rewrite ?Hn, ?Hp. simpl. eexists. reflexivity.
  - destruct (cache_calls_inv_run prov pid ids init_state (cache_calls_inv_init pid))
      as [[Hn _] | [Hs [k Hk]]].
    + left. split; [exact Hn|]. now rewrite (run_lookups_uncached_calls prov pid ids init_state Hn).
    + right. split; [exact Hs|]. eauto.
Qed.

Lemma player_cache_calls_witness :
  get_player_stats sample_provider 8 (run_lookups sample_provider [8] init_state)
  = (run_lookups sample_provider [8] init_state, Some ("Ann Lee", mkStats (Some "C") (Some "L") (Some 0.12%float))) /\
  exists b, provider_calls (fst (get_player_stats sample_provider 5
                                   (fst (get_player_stats sample_provider 5 init_state))))
            = [(5, false); (5, b)].
Proof.
  split.
  - apply (proj1 (player_cache_calls sample_provider [8] 8)); vm_compute; reflexivity.
  - destruct (proj1 (proj2 (player_cache_calls sample_provider [5] 5)) init_state
                (fst (get_player_stats sample_provider 5 init_state))
                ltac:(vm_compute; reflexivity) ltac:(vm_compute; reflexivity))
      as (_ & _ & Hc & b & Hb).
    exists b. rewrite Hb, Hc. reflexivity.
Defined.

(* ------------------------------------------------------------------ *)
(** ** The situation code check of the extractor *)

Lemma cache_ok_init : cache_ok init_state.
Proof. intros i [v Hv]. discriminate Hv. Qed.

Lemma get_player_stats_ok (prov : provider) (i : Z) (st : scraper_state) :
  cache_ok st -> is_Some (prov i ≫= stats_of_info) ->
  exists st' v, get_player_stats prov i st = (st', Some v) /\ cache_ok st'.
Proof.
  intros Hok Hp. unfold get_player_stats.
  destruct (player_dict st !! i) as [name|] eqn:Hd.
  - destruct (Hok i ltac:(rewrite Hd; eauto)) as [s Hs]. rewrite Hs. eauto.
  - destruct Hp as [[name s] Hp]. rewrite Hp.
    do 2 eexists. split; [reflexivity|].
    intros j. simpl. destruct (Z.eq_dec i j) as [<-|Hne].
    + rewrite !lookup_insert_eq. eauto.
    + rewrite !lookup_insert_ne by exact Hne. apply Hok.
Qed.

Lemma string_get_lt (sc : string) (i : nat) :
  (i < String.length sc)%nat -> exists c, String.get i sc = Some c.
Proof.
  revert i. induction sc as [|c sc IH]; intros i Hi; simpl in Hi; [lia|].
  destruct i as [|i]; simpl; [eauto|]. apply IH. lia.
Qed.

(** C1 (as stated): the extractor drops a shot exactly when the shooting
    team's own skater count is 0.  False both ways: a home shot whose
    home skater digit (character 2, as the extractor itself reads it) is
    0 is emitted, and a home shot with 5 home skaters but character 0
    equal to 0 is dropped. *)
Lemma empty_net_check_not_own_skaters :
  (exists row, In row (snd (scrape_fenwick_shots sample_provider
                         (sample_fetch "1501" (Some 30)) [100] init_state))
     /\ home row = 1 /\ home_skaters row = 0) /\
  ~ (exists row, In row (snd (scrape_fenwick_shots sample_provider
                         (sample_fetch "0551" (Some 30)) [100] init_state))
     /\ shot_class row = "shot-on-goal").
Proof.
  split.
  - vm_compute. eexists. split; [right; left; reflexivity | split; reflexivity].
  - vm_compute. intros (row & [<- | []] & Hc). discriminate Hc.
Qed.

(** C1 (amended): for a qualifying event whose other fields are usable
    (details, team, defending side, a situation code of at least four
    characters with digits at positions 1 and 2, a shooter id,
    coordinates, readable timestamps, and player lookups that succeed),
    the extractor drops the event exactly when the shooting team is the
    home team and character 0 of the situation code is "0", or it is the
    away team and character 3 is "0" (the goalie digits of the defending
    side: a shot on an empty net).  An emitted row takes its home skater
    count from character 2 and its away skater count from character 1. *)
Theorem empty_net_check (prov : provider) (gid hid aid : Z) (pbp : list play)
    (idx : nat) (p : play) (st : scraper_state) (pd : details) (t : Z)
    (sc : string) (s : Z) (a b : ascii) :
  typeDescKey p ∈ fenwick_types ->
  play_details p = Some pd -> eventOwnerTeamId pd = Some t ->
  is_Some (homeTeamDefendingSide p) ->
  situationCode p = Some sc -> (4 <= String.length sc)%nat ->
  String.get 1 sc = Some a -> py_is_digit a = true ->
  String.get 2 sc = Some b -> py_is_digit b = true ->
  (if bool_decide (typeDescKey p = "goal") then scoringPlayerId pd
   else shootingPlayerId pd) = Some s ->
  is_Some (xCoord pd) -> is_Some (yCoord pd) ->
  is_Some (is_rebound p (if (0 <? idx)%nat then pbp !! (idx - 1)%nat else None)) ->
  is_Some (is_rush p (if (0 <? idx)%nat then pbp !! (idx - 1)%nat else None)) ->
  is_Some (prov s ≫= stats_of_info) ->
  (forall g, goalieInNetId pd = Some g -> g <> 0 -> is_Some (prov g ≫= stats_of_info)) ->
  cache_ok st ->
  let skipped := (t = hid /\ String.get 0 sc = Some "0"%char) \/
                 (t = aid /\ String.get 3 sc = Some "0"%char) in
  (snd (process_event prov gid hid aid pbp idx p st) = None <-> skipped) /\
  (forall row, snd (process_event prov gid hid aid pbp idx p st) = Some row ->
     home row = (if Z.eqb t hid then 1 else 0) /\
     home_skaters row = digit_value b /\ away_skaters row = digit_value a).
Proof.
  intros Htype Hpd Ht [hs Hhs] Hsc Hlen Ha Hda Hb Hdb Hs [x Hx] [y Hy]
    [rb Hrb] [ru Hru] Hps Hpg Hok skipped.
  destruct (string_get_lt sc 0 ltac:(lia)) as [c0 H0].
  destruct (string_get_lt sc 3 ltac:(lia)) as [c3 H3].
  assert (Hc : forall i, sc_char p i = String.get i sc)
    by (intros i; unfold sc_char; now rewrite Hsc).
  assert (Hi2 : sc_int p 2 = Some (digit_value b))
    by (unfold sc_int; rewrite Hc, Hb; simpl; now apply py_int_one_digit).
  assert (Hi1 : sc_int p 1 = Some (digit_value a))
    by (unfold sc_int; rewrite Hc, Ha; simpl; now apply py_int_one_digit).
  destruct (get_player_stats_ok prov s st Hok Hps) as (st1 & [sn sst] & Hgs & Hok1).
  unfold process_event. rewrite (bool_decide_eq_true_2 _ Htype).
  unfold process_play, mbind_M, lift, mret_M.
  rewrite Hpd. cbv beta iota zeta. rewrite Ht. cbv beta iota zeta.
  rewrite Hhs. cbv beta iota zeta. rewrite !Hc, H0, H3. cbv beta iota zeta.
  (* the part after the situation code check *)
  set (rest := match (if bool_decide (typeDescKey p = "goal") then scoringPlayerId pd
                      else shootingPlayerId pd) with | None => _ | Some _ => _ end).
  assert (Hrest : exists st' row, rest st = (st', Some (Some row)) /\
            home row = (if Z.eqb t hid then 1 else 0) /\
            home_skaters row = digit_value b /\ away_skaters row = digit_value a).
  { subst rest. rewrite Hs. cbv beta iota zeta. rewrite Hgs. cbv beta iota zeta.
    rewrite Hrb. cbv beta iota zeta. rewrite Hru. cbv beta iota zeta.
    rewrite Hx, Hy. cbv beta iota zeta. rewrite Hi2. cbv beta iota zeta.
    rewrite Hi1. cbv beta iota zeta.
    destruct (goalieInNetId pd) as [g|] eqn:Hg.
    - destruct (Z.eqb_spec g 0) as [->|Hne].
      + do 2 eexists. split; [reflexivity|]. cbn. auto.
      + destruct (get_player_stats_ok prov g st1 Hok1 (Hpg g eq_refl Hne))
          as (st2 & [gn gs] & Hgg & _).
        rewrite Hgg. cbv beta iota zeta.
        do 2 eexists. split; [reflexivity|]. cbn. auto.
    - do 2 eexists. split; [reflexivity|]. cbn. auto. }
  clearbody rest. destruct Hrest as (st' & row & Hr & Hhome & Hhsk & Hask).
  subst skipped.
  destruct (Z.eqb_spec t hid) as [Eh|Eh]; destruct (Z.eqb_spec t aid) as [Ea|Ea];
    cbn [Z.eqb Pos.eqb];
    repeat case_bool_decide; subst; rewrite ?Hr; cbn;
    (split; [split; intros Hq; try discriminate; try tauto; try congruence;
             destruct Hq as [[? Hq]|[? Hq]]; congruence
            | intros row' Hrow; try discriminate; injection Hrow as <-; auto]).
Qed.

Lemma empty_net_check_witness :
  (snd (process_event sample_provider 100 1 2 [sample_miss; sample_shot "1501" (Some 30)] 1
          (sample_shot "1501" (Some 30)) init_state) = None <->
   (1 = 1 /\ String.get 0 "1501" = Some "0"%char) \/
   (1 = 2 /\ String.get 3 "1501" = Some "0"%char)).
Proof.
  apply (proj1 (empty_net_check sample_provider 100 1 2 [sample_miss; sample_shot "1501" (Some 30)] 1
          (sample_shot "1501" (Some 30)) init_state
          (mkDetails (Some 1) (Some "O") None (Some 8) (Some 80) (Some 0) (Some "wrist") (Some 30))
          1 "1501" 8 "5"%char "0"%char
          ltac:(apply list_elem_of_In; simpl; right; right; left; reflexivity)
          eq_refl eq_refl ltac:(eexists; reflexivity) eq_refl ltac:(simpl; lia)
          eq_refl eq_refl eq_refl eq_refl eq_refl
          ltac:(eexists; reflexivity) ltac:(eexists; reflexivity)
          ltac:(vm_compute; eexists; reflexivity) ltac:(vm_compute; eexists; reflexivity)
          ltac:(vm_compute; eexists; reflexivity)
          ltac:(intros g Hg _; injection Hg as <-; vm_compute; eexists; reflexivity)
          cache_ok_init)).
Defined.

(* ------------------------------------------------------------------ *)
(** ** Shot value of the final feature table *)

Lemma get_danger_zone_label (x y : Z) : danger_label (get_danger_zone x y).
Proof.
  unfold danger_label, get_danger_zone.
  repeat match goal with |- context [if ?c then _ else _] => destruct c end; auto.
Qed.

Lemma process_play_danger (prov : provider) (gid hid aid : Z) (pbp : list play)
    (idx : nat) (p : play) (st st' : scraper_state) (row : shot_record) :
  process_play prov gid hid aid pbp idx p st = (st', Some (Some row)) ->
  danger_label (danger_zone row).
Proof.
  intros H. unfold process_play, mbind_M, lift, mret_M in H.
  repeat (cbv beta iota zeta in H;
          match type of H with
          | context [match ?e with _ => _ end] => destruct e; try discriminate H
          end).
  all: injection H as _ <-; apply get_danger_zone_label.
Qed.

Lemma scan_plays_danger (prov : provider) (gid hid aid : Z) (pbp : list play) (ps : list play) :
  forall idx st rows, Forall (λ r, danger_label (danger_zone r)) rows ->
  Forall (λ r, danger_label (danger_zone r)) (snd (scan_plays prov gid hid aid pbp idx ps st rows)).
Proof.
  induction ps as [|p ps IH]; intros idx st rows Hrows; [exact Hrows|].
  simpl. destruct (process_event prov gid hid aid pbp idx p st) as [st1 [row|]] eqn:He;
    apply IH; [|exact Hrows].
  apply Forall_app. split; [exact Hrows|]. constructor; [|constructor].
  unfold process_event in He. destruct (bool_decide _); [|discriminate He].
  destruct (process_play prov gid hid aid pbp idx p st) as [st2 [[r|]|]] eqn:Hp;
    try discriminate He.
  injection He as _ <-. exact (process_play_danger _ _ _ _ _ _ _ _ _ _ Hp).
Qed.

Lemma scrape_games_danger (prov : provider) (fetch : fetcher) (gids : list Z) :
  forall st rows, Forall (λ r, danger_label (danger_zone r)) rows ->
  Forall (λ r, danger_label (danger_zone r)) (snd (scrape_games prov fetch gids st rows)).
Proof.
  induction gids as [|g gs IH]; intros st rows Hrows; [exact Hrows|].
  simpl. destruct (fetch g) as [gd|]; [|constructor].
  destruct (scan_plays _ _ _ _ _ _ _ _ _) as [st' rows'] eqn:Hs.
  apply IH. change rows' with (snd (st', rows')). rewrite <- Hs.
  now apply scan_plays_danger.
Qed.

Lemma derive_after_filter (l : list shot_record) :
  map (λ rg, derive_row rg.1 rg.2)
      (List.filter (λ rg, keep_row rg.1)
         (map (λ r, (r, object_add (shoots r) (goalie_catches r))) l))
  = map (λ r, derive_row r (object_add (shoots r) (goalie_catches r)))
        (List.filter keep_row l).
Proof.
  induction l as [|r l IH]; [reflexivity|].
  simpl. destruct (keep_row r); simpl; now rewrite IH.
Qed.

Lemma processFenwick_rows (df : list shot_record) (out : list Features.feature_row) :
  processFenwick df = Some out ->
  out = map (λ r, derive_row r (object_add (shoots r) (goalie_catches r)))
            (List.filter keep_row df).
Proof.
  unfold processFenwick. destruct df as [|r0 df]; [discriminate|].
  intros H. injection H as <-. exact (derive_after_filter (r0 :: df)).
Qed.

(** C8: in the feature table built from the extractor's output, every row
    has shot_value = numeric(danger_zone) + rebound + rush, with
    numeric(low) = 1, numeric(med) = 2, numeric(high) = 3. *)
Theorem shot_value_correct (prov : provider) (fetch : fetcher) (gids : list Z)
    (st : scraper_state) (out : list Features.feature_row) :
  processFenwick (snd (scrape_fenwick_shots prov fetch gids st)) = Some out ->
  forall f, In f out ->
  (Features.danger_zone f = "low" /\
     Features.shot_value f = Some (1 + Features.rebound f + Features.rush f)) \/
  (Features.danger_zone f = "med" /\
     Features.shot_value f = Some (2 + Features.rebound f + Features.rush f)) \/
  (Features.danger_zone f = "high" /\
     Features.shot_value f = Some (3 + Features.rebound f + Features.rush f)).
Proof.
  intros Hp f Hf. apply processFenwick_rows in Hp. subst out.
  apply in_map_iff in Hf as (r & <- & Hr). apply filter_In in Hr as [Hr _].
  pose proof (scrape_games_danger prov fetch gids st [] (List.Forall_nil _)) as Hall.
  rewrite List.Forall_forall in Hall. specialize (Hall r Hr).
  unfold derive_row, shot_value_of; simpl.
  destruct Hall as [-> | [-> | ->]]; [left | right; left | right; right]; split; reflexivity.
Qed.

Lemma shot_value_correct_witness :
  exists out, processFenwick (snd (scrape_fenwick_shots sample_provider
                 (sample_fetch "1551" (Some 30)) [100] init_state)) = Some out /\
    Forall (λ f, Features.danger_zone f = "high" /\
                 Features.shot_value f = Some (3 + Features.rebound f + Features.rush f)) out.
Proof.
  eexists. split; [vm_compute; reflexivity|].
  apply List.Forall_forall. intros f Hf.
  destruct (shot_value_correct sample_provider (sample_fetch "1551" (Some 30)) [100] init_state
              _ ltac:(vm_compute; reflexivity) f Hf) as [[Hd _]|[[Hd _]|H3]];
    [| |exact H3]; vm_compute in Hf;
    repeat destruct Hf as [<-|Hf]; try destruct Hf; discriminate Hd.
Defined.

(* ------------------------------------------------------------------ *)
(** ** Rows without a goaltender in [processFenwick] *)

(** C10 (as stated): a table holding a row with the (null, null, null)
    goaltender placeholder makes [processFenwick] raise.  False: the
    extractor's table below holds such a row, and [processFenwick]
    returns a table. *)
Lemma processFenwick_placeholder_returns :
  (exists r, In r (snd (scrape_fenwick_shots sample_provider (sample_fetch "1551" None)
                          [100] init_state))
     /\ goalie_id r = None /\ goalie r = None /\ goalie_catches r = None
     /\ career_save_pct r = None) /\
  processFenwick (snd (scrape_fenwick_shots sample_provider (sample_fetch "1551" None)
                         [100] init_state)) <> None.
Proof.
  split.
  - vm_compute. eexists. split; [right; left; reflexivity | repeat split].
  - vm_compute. discriminate.
Qed.

Lemma forall2_map_self {A B} (R : A -> B -> Prop) (g : A -> B) (l : list A) :
  (forall a, In a l -> R a (g a)) -> Forall2 R l (map g l).
Proof.
  induction l as [|a l IH]; intros H; simpl; constructor.
  - apply H. now left.
  - apply IH. intros a' Ha'. apply H. now right.
Qed.

(** C10 (amended): [processFenwick] does not raise on a non-empty table
    from the extractor, placeholder rows included: it returns one row per
    input row with at least 3 skaters on each side and a non-null
    goalie_id (so placeholder rows are dropped), and each returned row's
    shot_on_glove is the concatenation of shoots and goalie_catches when
    both are present and missing (NaN) otherwise. *)
Theorem processFenwick_total (df : list shot_record) :
  df <> [] ->
  exists out, processFenwick df = Some out /\
    List.length out = List.length (List.filter keep_row df) /\
    (forall r, In r df -> goalie_id r = None -> keep_row r = false) /\
    Forall2 (λ r f, Features.shot_on_glove f =
                      match shoots r, goalie_catches r with
                      | Some x, Some y => Some (x +:+ y)
                      | _, _ => None
                      end)
            (List.filter keep_row df) out.
Proof.
  intros Hne. destruct (processFenwick df) as [out|] eqn:Hp.
  2:{ unfold processFenwick in Hp. destruct df; [contradiction | discriminate]. }
  exists out. split; [reflexivity|].
  apply processFenwick_rows in Hp. subst out. split; [|split].
  - apply length_map.
  - intros r _ Hg. unfold keep_row. rewrite Hg.
    rewrite bool_decide_eq_false_2 by (intros [v Hv]; discriminate Hv).
    now rewrite andb_false_r.
  - apply forall2_map_self. intros r _. reflexivity.
Qed.

Lemma processFenwick_total_witness :
  exists out, processFenwick (snd (scrape_fenwick_shots sample_provider
                 (sample_fetch "1551" None) [100] init_state)) = Some out /\
    List.length out = 1%nat.
Proof.
  destruct (processFenwick_total (snd (scrape_fenwick_shots sample_provider
               (sample_fetch "1551" None) [100] init_state)) ltac:(vm_compute; discriminate))
    as (out & Hout & Hlen & _).
  exists out. split; [exact Hout|]. rewrite Hlen. vm_compute. reflexivity.
Defined.

(* ------------------------------------------------------------------ *)
(** ** The rows the extractor emits *)

Lemma process_play_row (prov : provider) (gid hid aid : Z) (pbp : list play)
    (idx : nat) (p : play) (st st' : scraper_state) (row : shot_record) :
  process_play prov gid hid aid pbp idx p st = (st', Some (Some row)) ->
  exists pd, play_details p = Some pd /\
    eventOwnerTeamId pd = Some (team_id row) /\
    home row = (if Z.eqb (team_id row) hid then 1 else 0) /\
    game_id row = gid /\ shot_class row = typeDescKey p /\
    last_play row = typeDescKey <$> (if (0 <? idx)%nat then pbp !! (idx - 1)%nat else None) /\
    is_rebound p (if (0 <? idx)%nat then pbp !! (idx - 1)%nat else None) = Some (rebound row) /\
    is_rush p (if (0 <? idx)%nat then pbp !! (idx - 1)%nat else None) = Some (rush row) /\
    goalie_id row = goalieInNetId pd /\
    (goalie_id row = None \/ goalie_id row = Some 0 ->
       goalie row = None /\ goalie_catches row = None /\ career_save_pct row = None) /\
    (forall g, goalie_id row = Some g -> g <> 0 -> is_Some (goalie row)) /\
    sc_int p 2 = Some (home_skaters row) /\ sc_int p 1 = Some (away_skaters row) /\
    xCoord pd = Some (x_coord row) /\ yCoord pd = Some (y_coord row) /\
    danger_zone row = get_danger_zone (x_coord row) (y_coord row).
Proof.
  intros H. unfold process_play, mbind_M, lift, mret_M in H.
  destruct (0 <? idx)%nat.
  all: repeat (cbv beta iota zeta in H;
          match type of H with
          | context [match ?e with _ => _ end] =>
              lazymatch e with context [match _ with _ => _ end] => fail | _ => idtac end;
              destruct e eqn:?; try discriminate H
          end).
  all: injection H as _ <-; cbn.
  all: eexists; repeat split; eauto.
  all: repeat match goal with E : Z.eqb _ _ = _ |- _ => rewrite E; clear E end.
  all: try reflexivity.
  all: try (match goal with Hg : _ \/ _ |- _ =>
              destruct Hg as [Hn|Hn]; [discriminate Hn|];
              injection Hn as ->; rewrite Z.eqb_refl in *; discriminate end).
  all: intros g0 Hg Hne; try discriminate Hg; injection Hg as <-.
  all: match goal with E : Z.eqb _ 0 = true |- _ => apply Z.eqb_eq in E end; contradiction.
Qed.

Lemma process_event_row (prov : provider) (gid hid aid : Z) (pbp : list play)
    (idx : nat) (p : play) (st st' : scraper_state) (row : shot_record) :
  process_event prov gid hid aid pbp idx p st = (st', Some row) ->
  In (typeDescKey p) fenwick_types /\
  process_play prov gid hid aid pbp idx p st = (st', Some (Some row)).
Proof.
  unfold process_event. case_bool_decide as Hf; [|discriminate].
  destruct (process_play prov gid hid aid pbp idx p st) as [s [[r|]|]];
    try discriminate. intros Hr. injection Hr as <- <-.
  split; [|reflexivity]. now apply list_elem_of_In.
Qed.

Lemma scan_plays_origin (prov : provider) (gid hid aid : Z) (pbp : list play) (ps : list play) :
  forall idx st rows,
  (forall k q, ps !! k = Some q -> pbp !! (idx + k)%nat = Some q) ->
  forall row, In row (snd (scan_plays prov gid hid aid pbp idx ps st rows)) ->
  In row rows \/ exists k q s s', pbp !! k = Some q /\
    process_event prov gid hid aid pbp k q s = (s', Some row).
Proof.
  induction ps as [|p ps IH]; intros idx st rows Hps row Hin; [now left|].
  simpl in Hin.
  destruct (process_event prov gid hid aid pbp idx p st) as [st1 r] eqn:He.
  apply IH in Hin.
  2:{ intros k q Hk. replace (S idx + k)%nat with (idx + S k)%nat by lia.
        apply (Hps (S k)). exact Hk. }
  destruct Hin as [Hin|Hin]; [|now right].
  destruct r as [r|]; [|now left].
  apply in_app_or in Hin as [Hin|[<-|[]]]; [now left|].
  right. exists idx, p, st, st1. split; [|exact He].
  rewrite <- (Nat.add_0_r idx). now apply (Hps 0%nat).
Qed.

Lemma scrape_games_origin (prov : provider) (fetch : fetcher) (gids : list Z) :
  forall st rows row, In row (snd (scrape_games prov fetch gids st rows)) ->
  In row rows \/ exists g gd k q s s', In g gids /\ fetch g = Some gd /\
    plays gd !! k = Some q /\
    process_event prov g (homeTeam_id gd) (awayTeam_id gd) (plays gd) k q s = (s', Some row).
Proof.
  induction gids as [|g gs IH]; intros st rows row Hin; [now left|].
  simpl in Hin. destruct (fetch g) as [gd|] eqn:Hg; [|destruct Hin].
  destruct (scan_plays _ _ _ _ _ _ _ _ _) as [st' rows'] eqn:Hs.
  apply IH in Hin as [Hin|(g' & gd' & k & q & s & s' & H1 & H2 & H3 & H4)].
  - change rows' with (snd (st', rows')) in Hin. rewrite <- Hs in Hin.
    apply scan_plays_origin in Hin as [Hin|(k & q & s & s' & H1 & H2)];
      [now left| |now intros k q Hk].
    right. exists g, gd, k, q, s, s'. repeat split; auto. now left.
  - right. exists g', gd', k, q, s, s'. repeat split; auto. now right.
Qed.

(** What one emitted row records, read back from its event. *)
Lemma scrape_row_event (prov : provider) (fetch : fetcher) (gids : list Z)
    (st : scraper_state) (row : shot_record) :
  In row (snd (scrape_fenwick_shots prov fetch gids st)) ->
  exists gd k p s s', In (game_id row) gids /\ fetch (game_id row) = Some gd /\
    plays gd !! k = Some p /\ In (typeDescKey p) fenwick_types /\
    process_play prov (game_id row) (homeTeam_id gd) (awayTeam_id gd) (plays gd) k p s
      = (s', Some (Some row)).
Proof.
  intros Hin. apply scrape_games_origin in Hin as [[]|(g & gd & k & q & s & s' & H1 & H2 & H3 & H4)].
  apply process_event_row in H4 as [Ht Hp].
  destruct (process_play_row _ _ _ _ _ _ _ _ _ _ Hp) as (pd & _ & _ & _ & Hgid & _).
  subst g. exists gd, k, q, s, s'. auto.
Qed.

Lemma is_rebound_values (p : play) (prev : option play) (v : Z) :
  is_rebound p prev = Some v ->
  (v = 0 \/ v = 1) /\ (prev = None -> v = 0) /\
  (v = 1 -> exists q, prev = Some q /\
     In (typeDescKey q) ["blocked-shot"; "missed-shot"; "shot-on-goal"]).
Proof.
  destruct prev as [q|]; simpl.
  2:{ intros H. injection H as <-. repeat split; auto; discriminate. }
  destruct (second_diff (timeInPeriod p) (timeInPeriod q)) as [d|]; simpl; [|discriminate].
  case_bool_decide as Hb; case_bool_decide as Hm; simpl;
    repeat match goal with |- context [if ?c then _ else _] => destruct c end;
    intros H; injection H as <-; repeat split; try discriminate; auto;
    intros _; exists q; split; auto; simpl.
  all: first [left; congruence
             | apply elem_of_pair in Hm; destruct Hm as [Hm|Hm]; rewrite Hm; simpl; tauto].
Qed.

Lemma is_rush_values (p : play) (prev : option play) (v : Z) :
  is_rush p prev = Some v ->
  (v = 0 \/ v = 1) /\ (prev = None -> v = 0) /\
  (v = 1 -> exists q, prev = Some q /\ ~ In (typeDescKey q) stoppages).
Proof.
  destruct prev as [q|]; simpl.
  2:{ intros H. injection H as <-. repeat split; auto; discriminate. }
  case_bool_decide as Hs; [intros H; injection H as <-; repeat split; auto; discriminate|].
  destruct (second_diff (timeInPeriod p) (timeInPeriod q)) as [d|]; simpl; [|discriminate].
  destruct (d >? 4); [intros H; injection H as <-; repeat split; auto; discriminate|].
  destruct (play_details p) as [pd|]; simpl; [|discriminate].
  destruct (prev_zoneCode q) as [z|];
    [|intros H; injection H as <-; repeat split; auto; discriminate].
  repeat match goal with |- context [if ?c then _ else _] => destruct c end;
    intros H; injection H as <-; repeat split; auto; try discriminate;
    intros _; exists q; split; auto; intros Hin; apply Hs; now apply list_elem_of_In.
Qed.

Lemma sc_int_digit (p : play) (i : nat) (v : Z) :
  sc_int p i = Some v -> 0 <= v <= 9.
Proof.
  unfold sc_int. destruct (sc_char p i) as [c|]; simpl; [|discriminate].
  assert (H : forall c, match py_int (String c EmptyString) with
                        | Some v => (0 <=? v) && (v <=? 9) | None => true end = true)
    by (apply ascii_forallb; vm_compute; reflexivity).
  specialize (H c). intros Hc. rewrite Hc in H. lia.
Qed.

(** X1: every row the extractor emits comes from a missed shot, a goal or a
    shot on goal of one of the requested games whose play-by-play was
    fetched, and its home flag is 1 exactly when the shooting team is that
    game's home team. *)
Theorem scrape_rows_from_shot_events (prov : provider) (fetch : fetcher) (gids : list Z)
    (st : scraper_state) (row : shot_record) :
  In row (snd (scrape_fenwick_shots prov fetch gids st)) ->
  In (shot_class row) fenwick_types /\ In (game_id row) gids /\
  exists gd, fetch (game_id row) = Some gd /\
    home row = (if Z.eqb (team_id row) (homeTeam_id gd) then 1 else 0).
Proof.
  intros Hin.
  destruct (scrape_row_event _ _ _ _ _ Hin) as (gd & k & p & s & s' & Hg & Hf & _ & Ht & Hp).
  destruct (process_play_row _ _ _ _ _ _ _ _ _ _ Hp)
    as (pd & _ & _ & Hhome & _ & Hclass & _).
  rewrite Hclass. repeat split; auto. exists gd. auto.
Qed.

(** X2: in every emitted row, rebound and rush are 0 or 1; both are 0 when
    there is no previous event; a rebound follows a blocked, missed or
    on-goal shot; a rush never follows a stoppage, faceoff, goal, penalty
    or period or game boundary. *)
Theorem scrape_rows_rebound_rush (prov : provider) (fetch : fetcher) (gids : list Z)
    (st : scraper_state) (row : shot_record) :
  In row (snd (scrape_fenwick_shots prov fetch gids st)) ->
  (rebound row = 0 \/ rebound row = 1) /\ (rush row = 0 \/ rush row = 1) /\
  (last_play row = None -> rebound row = 0 /\ rush row = 0) /\
  (rebound row = 1 -> exists t, last_play row = Some t /\
     In t ["blocked-shot"; "missed-shot"; "shot-on-goal"]) /\
  (rush row = 1 -> exists t, last_play row = Some t /\ ~ In t stoppages).
Proof.
  intros Hin.
  destruct (scrape_row_event _ _ _ _ _ Hin) as (gd & k & p & s & s' & _ & _ & _ & _ & Hp).
  destruct (process_play_row _ _ _ _ _ _ _ _ _ _ Hp)
    as (pd & _ & _ & _ & _ & _ & Hlast & Hreb & Hrush & _).
  rewrite Hlast.
  destruct (is_rebound_values _ _ _ Hreb) as (Hr01 & Hr0 & Hr1).
  destruct (is_rush_values _ _ _ Hrush) as (Hu01 & Hu0 & Hu1).
  split; [exact Hr01|]. split; [exact Hu01|]. split; [|split].
  - intros Hn. destruct (if (0 <? k)%nat then _ else _); [discriminate Hn|].
    split; [now apply Hr0 | now apply Hu0].
  - intros H1. destruct (Hr1 H1) as (q & -> & Hq). eauto.
  - intros H1. destruct (Hu1 H1) as (q & -> & Hq). eauto.
Qed.

(** X3: an emitted row whose goalie_id is missing or 0 carries no
    goaltender name, catching hand or save percentage; a row with a
    non-zero goalie_id always carries a goaltender name. *)
Theorem scrape_rows_goalie (prov : provider) (fetch : fetcher) (gids : list Z)
    (st : scraper_state) (row : shot_record) :
  In row (snd (scrape_fenwick_shots prov fetch gids st)) ->
  (goalie_id row = None \/ goalie_id row = Some 0 ->
     goalie row = None /\ goalie_catches row = None /\ career_save_pct row = None) /\
  (forall g, goalie_id row = Some g -> g <> 0 -> is_Some (goalie row)).
Proof.
  intros Hin.
  destruct (scrape_row_event _ _ _ _ _ Hin) as (gd & k & p & s & s' & _ & _ & _ & _ & Hp).
  destruct (process_play_row _ _ _ _ _ _ _ _ _ _ Hp)
    as (pd & _ & _ & _ & _ & _ & _ & _ & _ & _ & Hnone & Hsome & _).
  auto.
Qed.

(** X4: the skater counts of every emitted row are the digits at
    positions 2 (home) and 1 (away) of the situationCode of the row's own
    event: the event at some index of the fetched game's plays whose type,
    team, coordinates and goalie are the row's and whose preceding event
    gives the row's last_play; so both counts lie between 0 and 9. *)
Theorem scrape_rows_skaters (prov : provider) (fetch : fetcher) (gids : list Z)
    (st : scraper_state) (row : shot_record) :
  In row (snd (scrape_fenwick_shots prov fetch gids st)) ->
  exists gd k p pd, fetch (game_id row) = Some gd /\ plays gd !! k = Some p /\
    typeDescKey p = shot_class row /\ play_details p = Some pd /\
    eventOwnerTeamId pd = Some (team_id row) /\
    xCoord pd = Some (x_coord row) /\ yCoord pd = Some (y_coord row) /\
    goalieInNetId pd = goalie_id row /\
    last_play row = typeDescKey <$> (if (0 <? k)%nat then plays gd !! (k - 1)%nat else None) /\
    sc_int p 2 = Some (home_skaters row) /\ sc_int p 1 = Some (away_skaters row) /\
    0 <= home_skaters row <= 9 /\ 0 <= away_skaters row <= 9.
Proof.
  intros Hin.
  destruct (scrape_row_event _ _ _ _ _ Hin) as (gd & k & p & s & s' & _ & Hf & Hk & _ & Hp).
  destruct (process_play_row _ _ _ _ _ _ _ _ _ _ Hp)
    as (pd & Hpd & Hteam & _ & _ & Hclass & Hlast & _ & _ & Hgoalie & _ & _ & Hh & Ha & Hx & Hy & _).
  exists gd, k, p, pd. repeat split; auto; eapply sc_int_digit; eauto.
Qed.

Lemma scan_plays_length (prov : provider) (gid hid aid : Z) (pbp : list play) (ps : list play) :
  forall idx st rows,
  (List.length (snd (scan_plays prov gid hid aid pbp idx ps st rows))
     <= List.length rows + List.length ps)%nat.
Proof.
  induction ps as [|p ps IH]; intros idx st rows; simpl; [lia|].
  destruct (process_event prov gid hid aid pbp idx p st) as [st1 [r|]].
  - specialize (IH (S idx) st1 (rows ++ [r])). rewrite length_app in IH. simpl in IH. lia.
  - specialize (IH (S idx) st1 rows). lia.
Qed.

Lemma scrape_games_length (prov : provider) (fetch : fetcher) (gids : list Z) :
  forall st rows,
  (List.length (snd (scrape_games prov fetch gids st rows))
     <= List.length rows + total_events fetch gids)%nat.
Proof.
  induction gids as [|g gs IH]; intros st rows; simpl; [lia|].
  destruct (fetch g) as [gd|]; simpl; [|lia].
  pose proof (scan_plays_length prov g (homeTeam_id gd) (awayTeam_id gd) (plays gd) (plays gd)
                0 st rows) as Hs.
  destruct (scan_plays _ _ _ _ _ _ _ _ _) as [st' rows'] eqn:E. simpl in Hs.
  specialize (IH st' rows'). lia.
Qed.

(** X5: the extractor emits at most one row per event of the fetched
    games. *)
Theorem scrape_rows_at_most_events (prov : provider) (fetch : fetcher) (gids : list Z)
    (st : scraper_state) :
  (List.length (snd (scrape_fenwick_shots prov fetch gids st)) <= total_events fetch gids)%nat.
Proof.
  exact (scrape_games_length prov fetch gids st []).
Qed.

Lemma get_player_stats_sync (prov : provider) (i : Z) (st st' : scraper_state)
    (o : option (string * stats)) :
  dicts_in_sync st -> get_player_stats prov i st = (st', o) -> dicts_in_sync st'.
Proof.
  intros Hs. unfold get_player_stats.
  destruct (player_dict st !! i) as [name|].
  { destruct (player_stats_cache st !! i); intros H; injection H as <- _; exact Hs. }
  destruct (prov i ≫= stats_of_info) as [[name s]|]; intros H; injection H as <- _;
    [|exact Hs].
  intros j. simpl. destruct (decide (j = i)) as [->|Hne].
  - rewrite !lookup_insert_eq. split; eauto.
  - rewrite !lookup_insert_ne by congruence. apply Hs.
Qed.

Lemma process_play_sync (prov : provider) (gid hid aid : Z) (pbp : list play)
    (idx : nat) (p : play) (st st' : scraper_state) (r : option (option shot_record)) :
  dicts_in_sync st ->
  process_play prov gid hid aid pbp idx p st = (st', r) -> dicts_in_sync st'.
Proof.
  intros Hs H. unfold process_play, mbind_M, lift, mret_M in H.
  repeat (cbv beta iota zeta in H;
          match type of H with
          | context [match ?e with _ => _ end] =>
              lazymatch e with context [match _ with _ => _ end] => fail | _ => idtac end;
              destruct e eqn:?
          end).
  all: repeat match goal with
         | E : get_player_stats _ _ ?s = (?s', _), Hs0 : dicts_in_sync ?s |- _ =>
             lazymatch goal with
             | _ : dicts_in_sync s' |- _ => fail
             | _ => pose proof (get_player_stats_sync _ _ _ _ _ Hs0 E)
             end
         end.
  all: injection H as <- _; assumption.
Qed.

Lemma scan_plays_sync (prov : provider) (gid hid aid : Z) (pbp : list play) (ps : list play) :
  forall idx st rows, dicts_in_sync st ->
  dicts_in_sync (fst (scan_plays prov gid hid aid pbp idx ps st rows)).
Proof.
  induction ps as [|p ps IH]; intros idx st rows Hs; simpl; [exact Hs|].
  destruct (process_event prov gid hid aid pbp idx p st) as [st1 r] eqn:He.
  apply IH. unfold process_event in He.
  destruct (bool_decide _); [|injection He as <- _; exact Hs].
  destruct (process_play prov gid hid aid pbp idx p st) as [st2 r2] eqn:Hp.
  assert (st2 = st1) as <- by (destruct r2 as [[]|]; congruence).
  exact (process_play_sync _ _ _ _ _ _ _ _ _ _ Hs Hp).
Qed.

(** X6: the scraper keeps player_dict and player_stats_cache on the same
    set of player ids, whatever the provider and the games do. *)
Theorem scrape_keeps_dicts_in_sync (prov : provider) (fetch : fetcher) (gids : list Z)
    (st : scraper_state) :
  dicts_in_sync st -> dicts_in_sync (fst (scrape_fenwick_shots prov fetch gids st)).
Proof.
  unfold scrape_fenwick_shots. generalize (@nil shot_record) as rows.
  revert st. induction gids as [|g gs IH]; intros st rows Hs; simpl; [exact Hs|].
  destruct (fetch g) as [gd|]; simpl; [|exact Hs].
  pose proof (scan_plays_sync prov g (homeTeam_id gd) (awayTeam_id gd) (plays gd) (plays gd)
                0 st rows Hs) as Hs'.
  destruct (scan_plays _ _ _ _ _ _ _ _ _) as [st' rows'] eqn:E. apply IH. exact Hs'.
Qed.

Lemma scrape_keeps_dicts_in_sync_witness :
  dicts_in_sync (fst (scrape_fenwick_shots sample_provider (sample_fetch "1551" (Some 30))
                        [100] init_state)).
Proof.
  apply scrape_keeps_dicts_in_sync.
  intros i. simpl. rewrite !lookup_empty. split; intros [v Hv]; discriminate Hv.
Defined.

(** X7: get_player_stats changes no entry but the looked-up id's; once a
    lookup succeeds, both dicts hold its result, and looking the same id
    up again returns that result without changing the state. *)
Theorem get_player_stats_roundtrip (prov : provider) (i : Z) (st st' : scraper_state)
    (o : option (string * stats)) :
  get_player_stats prov i st = (st', o) ->
  (forall j, j <> i -> player_dict st' !! j = player_dict st !! j /\
                       player_stats_cache st' !! j = player_stats_cache st !! j) /\
  (forall v, o = Some v ->
     player_dict st' !! i = Some v.1 /\ player_stats_cache st' !! i = Some v.2 /\
     get_player_stats prov i st' = (st', Some v)).
Proof.
  unfold get_player_stats at 1.
  destruct (player_dict st !! i) as [name|] eqn:Hd.
  { destruct (player_stats_cache st !! i) as [s|] eqn:Hc; intros H; injection H as <- <-;
      (split; [auto|]); intros v Hv; [|discriminate Hv].
    injection Hv as <-. simpl. repeat split; auto.
    unfold get_player_stats. now rewrite Hd, Hc. }
  destruct (prov i ≫= stats_of_info) as [[name s]|]; intros H; injection H as <- <-.
  - split.
    + intros j Hj. simpl. now rewrite !lookup_insert_ne by congruence.
    + intros v Hv. injection Hv as <-. simpl. rewrite !lookup_insert_eq.
      repeat split. unfold get_player_stats. simpl. now rewrite !lookup_insert_eq.
  - split; [auto|]. intros v Hv. discriminate Hv.
Qed.

Lemma get_player_stats_roundtrip_witness :
  player_dict (fst (get_player_stats sample_provider 8 init_state)) !! 8 = Some "Ann Lee" /\
  get_player_stats sample_provider 8 (fst (get_player_stats sample_provider 8 init_state))
    = get_player_stats sample_provider 8 init_state.
Proof.
  destruct (get_player_stats_roundtrip sample_provider 8 init_state
              (fst (get_player_stats sample_provider 8 init_state))
              (snd (get_player_stats sample_provider 8 init_state)) eq_refl) as [_ H].
  destruct (H _ eq_refl) as (Hd & _ & Hr). split; [exact Hd|]. exact Hr.
Defined.

(** X8: second_diff is symmetric in its two timestamps, never negative,
    and 0 (when defined) on equal timestamps. *)
Theorem second_diff_symmetric (t1 t2 : string) :
  second_diff t1 t2 = second_diff t2 t1 /\
  match second_diff t1 t2 with Some d => 0 <= d | None => True end /\
  (second_diff t1 t1 = None \/ second_diff t1 t1 = Some 0).
Proof.
  unfold second_diff.
  destruct (py_int (py_slice t1 0 2)), (py_int (py_slice t1 3 5)),
    (py_int (py_slice t2 0 2)), (py_int (py_slice t2 3 5)); simpl; auto;
    repeat split; try lia; try (right; f_equal; lia); f_equal; lia.
Qed.

(** X9: the classifier returns "high" exactly in the region
    69 <= |x| <= 89, |y| <= 6, and returns "low" everywhere outside
    44 <= |x| <= 89, |y| <= 22. *)
Theorem danger_zone_regions (x y : Z) :
  (get_danger_zone x y = "high" <-> 69 <= Z.abs x <= 89 /\ Z.abs y <= 6) /\
  (~ (44 <= Z.abs x <= 89 /\ Z.abs y <= 22) -> get_danger_zone x y = "low").
Proof.
  unfold get_danger_zone. split.
  - split.
    + repeat match goal with |- context [if ?c then _ else _] => destruct c eqn:? end;
        intros H; try discriminate H; lia.
    + intros Hr.
      replace (69 <=? Z.abs x) with true by lia.
      replace (Z.abs x <=? 89) with true by lia.
      replace (Z.abs y <=? 6) with true by lia. reflexivity.
  - intros Hout.
    repeat match goal with |- context [if ?c then _ else _] => destruct c eqn:? end;
      try reflexivity; exfalso; apply Hout; lia.
Qed.

Lemma danger_zone_regions_witness :
  get_danger_zone 30 0 = "low" /\ get_danger_zone (-80) 5 = "high".
Proof.
  split.
  - apply (proj2 (danger_zone_regions 30 0)). simpl. lia.
  - apply (proj2 (proj1 (danger_zone_regions (-80) 5))). simpl. lia.
Defined.

(** X10: every row processFenwick returns has at least 3 skaters on each
    side; its situation is "EV" exactly when both sides have as many
    skaters, "PP" exactly when the shooting side (home when home = 1) has
    more, and "SH" exactly when it has fewer. *)
Theorem processFenwick_rows_situation (df : list shot_record) (out : list Features.feature_row) :
  processFenwick df = Some out ->
  forall f, In f out ->
  let hs := Features.home_skaters f in
  let as_ := Features.away_skaters f in
  let shooting := if Z.eqb (Features.home f) 1 then hs else as_ in
  let defending := if Z.eqb (Features.home f) 1 then as_ else hs in
  3 <= hs /\ 3 <= as_ /\
  (Features.situation f = "EV" <-> hs = as_) /\
  (Features.situation f = "PP" <-> shooting > defending) /\
  (Features.situation f = "SH" <-> shooting < defending).
Proof.
  intros Hp f Hf. apply processFenwick_rows in Hp. subst out.
  apply in_map_iff in Hf as (r & <- & Hr). apply filter_In in Hr as [_ Hk].
  unfold keep_row in Hk. apply andb_prop in Hk as [Hk _]. apply andb_prop in Hk as [H1 H2].
  apply Z.leb_le in H1, H2. cbn zeta. simpl. unfold situation_of.
  split; [exact H1|]. split; [exact H2|].
  destruct (Z.eqb (home r) 1);
    repeat match goal with |- context [if ?c then _ else _] => destruct c eqn:? end;
    repeat split; intros H; try discriminate H; try reflexivity; lia.
Qed.

Lemma processFenwick_rows_situation_witness :
  exists out, processFenwick (snd (scrape_fenwick_shots sample_provider
                 (sample_fetch "1551" (Some 30)) [100] init_state)) = Some out /\
    Forall (λ f, Features.situation f = "EV") out.
Proof.
  eexists. split; [vm_compute; reflexivity|].
  apply List.Forall_forall. intros f Hf.
  pose proof (processFenwick_rows_situation (snd (scrape_fenwick_shots sample_provider
                 (sample_fetch "1551" (Some 30)) [100] init_state)) _
                 ltac:(vm_compute; reflexivity) f Hf) as H.
  cbn zeta in H. destruct H as (_ & _ & [_ HEV] & _). apply HEV.
  vm_compute in Hf. repeat destruct Hf as [<-|Hf]; try destruct Hf; reflexivity.
Defined.

(** X11: in the feature table built from the extractor's output, every row
    has between 3 and 9 skaters on each side, a home flag, rebound and
    rush that are 0 or 1, a shot_value between 1 and 5, and a shot class
    among missed shot, goal and shot on goal. *)
Theorem pipeline_feature_ranges (prov : provider) (fetch : fetcher) (gids : list Z)
    (st : scraper_state) (out : list Features.feature_row) :
  processFenwick (snd (scrape_fenwick_shots prov fetch gids st)) = Some out ->
  forall f, In f out ->
  3 <= Features.home_skaters f <= 9 /\ 3 <= Features.away_skaters f <= 9 /\
  (Features.home f = 0 \/ Features.home f = 1) /\
  (Features.rebound f = 0 \/ Features.rebound f = 1) /\
  (Features.rush f = 0 \/ Features.rush f = 1) /\
  (exists v, Features.shot_value f = Some v /\ 1 <= v <= 5) /\
  In (Features.shot_class f) fenwick_types.
Proof.
  intros Hp f Hf. apply processFenwick_rows in Hp. subst out.
  apply in_map_iff in Hf as (r & <- & Hr). apply filter_In in Hr as [Hr Hk].
  unfold keep_row in Hk. apply andb_prop in Hk as [Hk _]. apply andb_prop in Hk as [H1 H2].
  apply Z.leb_le in H1, H2.
  pose proof (scrape_games_danger prov fetch gids st [] (List.Forall_nil _)) as Hall.
  rewrite List.Forall_forall in Hall. specialize (Hall r Hr).
  destruct (scrape_row_event _ _ _ _ _ Hr) as (gd & k & p & s & s' & _ & _ & _ & Ht & Hpp).
  destruct (process_play_row _ _ _ _ _ _ _ _ _ _ Hpp)
    as (pd & _ & _ & Hhome & _ & Hclass & _ & Hreb & Hrush & _ & _ & _ & Hhs & Has & _).
  apply sc_int_digit in Hhs, Has.
  destruct (is_rebound_values _ _ _ Hreb) as (Hr01 & _).
  destruct (is_rush_values _ _ _ Hrush) as (Hu01 & _).
  unfold derive_row, shot_value_of; simpl.
  split; [lia|]. split; [lia|]. split.
  { rewrite Hhome. destruct (Z.eqb _ _); auto. }
  split; [exact Hr01|]. split; [exact Hu01|]. split; [|now rewrite Hclass].
  destruct Hall as [-> | [-> | ->]]; simpl; eexists; split; try reflexivity; lia.
Qed.

Lemma pipeline_feature_ranges_witness :
  exists out, processFenwick (snd (scrape_fenwick_shots sample_provider
                 (sample_fetch "1551" (Some 30)) [100] init_state)) = Some out /\
    Forall (λ f, exists v, Features.shot_value f = Some v /\ 1 <= v <= 5) out.
Proof.
  eexists. split; [vm_compute; reflexivity|].
  apply List.Forall_forall. intros f Hf.
  exact (proj1 (proj2 (proj2 (proj2 (proj2 (proj2
           (pipeline_feature_ranges sample_provider (sample_fetch "1551" (Some 30)) [100]
              init_state _ ltac:(vm_compute; reflexivity) f Hf))))))).
Defined.

Lemma update_game_ids_spec (games : list team_game) :
  forall (ids : gset Z) g, g ∈ update_game_ids games ids <->
  g ∈ ids \/ exists gm, In gm games /\ tg_id gm = g /\ tg_gameType gm <> 1.
Proof.
  induction games as [|gm gs IH]; intros ids g; simpl.
  - split; [now left|]. intros [H|(gm & [] & _)]. exact H.
  - rewrite IH. destruct (Z.eqb (tg_gameType gm) 1) eqn:Ht; simpl.
    + apply Z.eqb_eq in Ht. split.
      * intros [H|(gm' & H1 & H2 & H3)]; [now left|right; eauto].
      * intros [H|(gm' & [<-|H1] & H2 & H3)]; [now left|contradiction|right; eauto].
    + apply Z.eqb_neq in Ht. rewrite elem_of_union, elem_of_singleton. split.
      * intros [[H|H]|(gm' & H1 & H2 & H3)]; [right; eauto|now left|right; eauto].
      * intros [H|(gm' & [<-|H1] & H2 & H3)]; [left; now right|left; now left|right; eauto].
Qed.

Lemma collect_game_ids_spec (sched : schedule) (pairs : list (string * Z)) :
  forall ids ids' ok, collect_game_ids sched pairs ids = (ids', ok) ->
  (forall g, g ∈ ids -> g ∈ ids') /\
  (ok = false <-> exists a s, In (a, s) pairs /\ sched (team_abbrev a s) s = None) /\
  (ok = true -> forall g, g ∈ ids' <-> g ∈ ids \/
     exists a s games gm, In (a, s) pairs /\ sched (team_abbrev a s) s = Some games /\
       In gm games /\ tg_id gm = g /\ tg_gameType gm <> 1).
Proof.
  induction pairs as [|[a s] rest IH]; intros ids ids' ok H; simpl in H.
  - injection H as <- <-. split; [auto|]. split.
    + split; [discriminate|]. intros (a & s & [] & _).
    + intros _ g. split; [now left|]. intros [Hg|(a & s & games & gm & [] & _)]. exact Hg.
  - destruct (sched (team_abbrev a s) s) as [games|] eqn:Hs.
    + destruct (IH _ _ _ H) as (Hsub & Hfail & Hok). split; [|split].
      * intros g Hg. apply Hsub, update_game_ids_spec. now left.
      * rewrite Hfail. split.
        -- intros (a' & s' & Hin & Hn). exists a', s'. split; [now right|exact Hn].
        -- intros (a' & s' & [Heq|Hin] & Hn); [|eauto].
           injection Heq as -> ->. congruence.
      * intros Hk g. rewrite (Hok Hk), update_game_ids_spec. split.
        -- intros [[Hg|(gm & H1 & H2 & H3)]|(a' & s' & games' & gm & H1 & H2 & H3 & H4 & H5)].
           ++ now left.
           ++ right. exists a, s, games, gm. repeat split; auto. now left.
           ++ right. exists a', s', games', gm. repeat split; auto. now right.
        -- intros [Hg|(a' & s' & games' & gm & [Heq|H1] & H2 & H3 & H4 & H5)].
           ++ left. now left.
           ++ injection Heq as -> ->. rewrite Hs in H2. injection H2 as <-.
              left. right. eauto.
           ++ right. exists a', s', games', gm. auto.
    + injection H as <- <-. split; [auto|]. split.
      * split; [intros _; exists a, s; split; [now left|exact Hs]|reflexivity].
      * discriminate.
Qed.

Lemma read_abbrs_map (l : list string) : read_abbrs (map Some l) = Some l.
Proof. induction l as [|a l IH]; simpl; [reflexivity|]. now rewrite IH. Qed.

Lemma read_abbrs_some (ts : list team_entry) (l : list string) :
  read_abbrs ts = Some l -> ts = map Some l.
Proof.
  revert l. induction ts as [|[a|] ts IH]; intros l H; simpl in H.
  - now injection H as <-.
  - destruct (read_abbrs ts) as [r|]; [|discriminate H]. simpl in H.
    injection H as <-. simpl. now rewrite (IH r eq_refl).
  - discriminate H.
Qed.

Lemma read_abbrs_none (ts : list team_entry) : read_abbrs ts = None <-> In None ts.
Proof.
  induction ts as [|[a|] ts IH]; simpl.
  - split; [discriminate|tauto].
  - destruct (read_abbrs ts); simpl; split; intros H.
    + discriminate H.
    + destruct H as [H|H]; [discriminate H|]. apply IH in H. discriminate H.
    + right. now apply IH.
    + reflexivity.
  - split; [intros _; now left|reflexivity].
Qed.

(** X12: get_game_ids never drops an id already in self.game_ids; it
    raises exactly when self.client.teams.teams() raises, a team has no
    "abbr", or one schedule query raises; otherwise it returns, without
    duplicates, the ids already held plus the ids of the non-preseason
    games (gameType <> 1) of every (team, season) pair, Utah being queried
    as "ARI" for seasons before 2024-25. *)
Theorem get_game_ids_spec (teams_call : option (list team_entry)) (sched : schedule)
    (seasons : list Z) (ids0 ids' : gset Z) (res : option (list Z)) :
  get_game_ids teams_call sched seasons ids0 = (ids', res) ->
  (forall g, g ∈ ids0 -> g ∈ ids') /\
  (res = None <->
     teams_call = None \/ (exists ts, teams_call = Some ts /\ In None ts) \/
     exists team_abbrs, teams_call = Some (map Some team_abbrs) /\
       exists a s, In a team_abbrs /\ In s seasons /\ sched (team_abbrev a s) s = None) /\
  (forall l, res = Some l ->
     exists team_abbrs, teams_call = Some (map Some team_abbrs) /\
     NoDup l /\
     forall g, In g l <-> g ∈ ids0 \/
       exists a s games gm, In a team_abbrs /\ In s seasons /\
         sched (team_abbrev a s) s = Some games /\
         In gm games /\ tg_id gm = g /\ tg_gameType gm <> 1).
Proof.
  unfold get_game_ids.
  destruct teams_call as [ts|]; simpl.
  2:{ intros H. injection H as <- <-. split; [auto|]. split.
      - split; [intros _; now left|reflexivity].
      - intros l Hl. discriminate Hl. }
  destruct (read_abbrs ts) as [team_abbrs|] eqn:Hr.
  2:{ intros H. injection H as <- <-. split; [auto|]. split.
      - split; [intros _; right; left; exists ts; split; [reflexivity|now apply read_abbrs_none]
               |reflexivity].
      - intros l Hl. discriminate Hl. }
  apply read_abbrs_some in Hr as Hts. subst ts.
  destruct (collect_game_ids sched (list_prod team_abbrs seasons) ids0) as [ids ok] eqn:Hc.
  intros H. injection H as <- <-.
  destruct (collect_game_ids_spec _ _ _ _ _ Hc) as (Hsub & Hfail & Hok).
  assert (Hsame : forall l', Some (map Some team_abbrs) = Some (map Some l') -> l' = team_abbrs).
  { intros l' Heq. injection Heq as Heq.
    assert (Hx := read_abbrs_map l'). rewrite <- Heq, read_abbrs_map in Hx. congruence. }
  split; [exact Hsub|]. split.
  - destruct ok.
    + split; [intros Hx; discriminate Hx|].
      intros [Hx|[(ts & Hts & Hnone)|(l' & Hl' & a & s & Ha & Hs & Hn)]]; [discriminate Hx| |].
      * injection Hts as <-. apply in_map_iff in Hnone as (x & Hx & _). discriminate Hx.
      * apply Hsame in Hl'. subst l'. exfalso.
        assert (true = false) as Hf by (apply Hfail; exists a, s; split; [apply in_prod|]; auto).
        discriminate Hf.
    + split; [|reflexivity]. intros _. destruct (proj1 Hfail eq_refl) as (a & s & Hin & Hn).
      apply in_prod_iff in Hin as [Ha Hs]. right. right. exists team_abbrs. split; [reflexivity|].
      eauto.
  - intros l Hl. destruct ok; [|discriminate Hl]. injection Hl as <-.
    exists team_abbrs. split; [reflexivity|].
    split; [apply NoDup_elements|]. intros g.
    rewrite <- list_elem_of_In, elem_of_elements, (Hok eq_refl). split.
    + intros [Hg|(a & s & games & gm & Hin & H2 & H3 & H4 & H5)]; [now left|].
      apply in_prod_iff in Hin as [Ha Hs]. right. exists a, s, games, gm. repeat split; auto.
    + intros [Hg|(a & s & games & gm & Ha & Hs & H3 & H4 & H5 & H6)]; [now left|].
      right. exists a, s, games, gm. repeat split; auto. now apply in_prod.
Qed.

Lemma get_game_ids_spec_witness :
  (exists l, snd (get_game_ids (Some [Some "UTA"; Some "BOS"]) sample_schedule
                    [20232024; 20242025] ∅) = Some l
     /\ NoDup l /\ In 3 l /\ ~ In 2 l) /\
  snd (get_game_ids (Some [Some "BOS"; None]) sample_schedule [20232024] ∅) = None.
Proof.
  split.
  2:{ destruct (get_game_ids_spec (Some [Some "BOS"; None]) sample_schedule [20232024] ∅
                  (fst (get_game_ids (Some [Some "BOS"; None]) sample_schedule [20232024] ∅))
                  (snd (get_game_ids (Some [Some "BOS"; None]) sample_schedule [20232024] ∅))
                  eq_refl) as (_ & Hnone & _).
      apply Hnone. right. left. exists [Some "BOS"; None]. split; [reflexivity|].
      right. now left. }
  destruct (get_game_ids_spec (Some [Some "UTA"; Some "BOS"]) sample_schedule
              [20232024; 20242025] ∅
              (fst (get_game_ids (Some [Some "UTA"; Some "BOS"]) sample_schedule
                      [20232024; 20242025] ∅))
              (snd (get_game_ids (Some [Some "UTA"; Some "BOS"]) sample_schedule
                      [20232024; 20242025] ∅))
              eq_refl) as (_ & _ & Hl).
  destruct (snd (get_game_ids (Some [Some "UTA"; Some "BOS"]) sample_schedule
                   [20232024; 20242025] ∅))
    as [l|] eqn:E; [|vm_compute in E; discriminate E].
  exists l. destruct (Hl l eq_refl) as (abbrs & Habbrs & Hnd & Hmem).
  assert (abbrs = ["UTA"; "BOS"]) as ->.
  { injection Habbrs as Habbrs. pose proof (read_abbrs_map abbrs) as Hx.
    rewrite <- Habbrs in Hx. vm_compute in Hx. congruence. }
  split; [reflexivity|]. split; [exact Hnd|]. split.
  - apply Hmem. right. exists "UTA", 20242025, [mkTeamGame 3 2], (mkTeamGame 3 2).
    repeat split; simpl; auto; discriminate.
  - intros H2. apply Hmem in H2 as [H2|(a & s & games & gm & Ha & Hs & Hg & Hgm & Hid & Ht)].
    + apply elem_of_empty in H2. exact H2.
    + destruct Ha as [<-|[<-|[]]]; destruct Hs as [<-|[<-|[]]];
        vm_compute in Hg; injection Hg as <-;
        repeat destruct Hgm as [<-|Hgm]; try destruct Hgm; simpl in Hid, Ht; congruence.
Defined.

Lemma scrape_rows_from_shot_events_witness :
  exists row, In row (snd (scrape_fenwick_shots sample_provider (sample_fetch "1551" (Some 30))
                            [100] init_state)) /\
    shot_class row = "missed-shot" /\ In (shot_class row) fenwick_types.
Proof.
  destruct (nth_error (snd (scrape_fenwick_shots sample_provider (sample_fetch "1551" (Some 30))
                              [100] init_state)) 0) as [r|] eqn:E;
    [|vm_compute in E; discriminate E].
  exists r. assert (Hin : In r (snd (scrape_fenwick_shots sample_provider
                                      (sample_fetch "1551" (Some 30)) [100] init_state)))
    by (eapply nth_error_In; exact E).
  split; [exact Hin|]. split; [vm_compute in E; injection E as <-; reflexivity|].
  exact (proj1 (scrape_rows_from_shot_events _ _ _ _ r Hin)).
Defined.

Lemma scrape_rows_rebound_rush_witness :
  exists row, In row (snd (scrape_fenwick_shots sample_provider (sample_fetch "1551" (Some 30))
                            [100] init_state)) /\
    rebound row = 1 /\ exists t, last_play row = Some t /\
      In t ["blocked-shot"; "missed-shot"; "shot-on-goal"].
Proof.
  destruct (nth_error (snd (scrape_fenwick_shots sample_provider (sample_fetch "1551" (Some 30))
                              [100] init_state)) 1) as [r|] eqn:E;
    [|vm_compute in E; discriminate E].
  exists r. assert (Hin : In r (snd (scrape_fenwick_shots sample_provider
                                      (sample_fetch "1551" (Some 30)) [100] init_state)))
    by (eapply nth_error_In; exact E).
  assert (Hr : rebound r = 1) by (vm_compute in E; injection E as <-; reflexivity).
  split; [exact Hin|]. split; [exact Hr|].
  destruct (scrape_rows_rebound_rush _ _ _ _ r Hin) as (_ & _ & _ & H1 & _).
  exact (H1 Hr).
Defined.

Lemma scrape_rows_goalie_witness :
  exists row, In row (snd (scrape_fenwick_shots sample_provider (sample_fetch "1551" None)
                            [100] init_state)) /\
    goalie_id row = None /\ goalie row = None /\ career_save_pct row = None.
Proof.
  destruct (nth_error (snd (scrape_fenwick_shots sample_provider (sample_fetch "1551" None)
                              [100] init_state)) 1) as [r|] eqn:E;
    [|vm_compute in E; discriminate E].
  exists r. assert (Hin : In r (snd (scrape_fenwick_shots sample_provider
                                      (sample_fetch "1551" None) [100] init_state)))
    by (eapply nth_error_In; exact E).
  assert (Hg : goalie_id r = None) by (vm_compute in E; injection E as <-; reflexivity).
  split; [exact Hin|]. split; [exact Hg|].
  destruct (proj1 (scrape_rows_goalie _ _ _ _ r Hin) (or_introl Hg)) as (H1 & _ & H3).
  split; [exact H1|exact H3].
Defined.

Lemma scrape_rows_skaters_witness :
  exists row, In row (snd (scrape_fenwick_shots sample_provider (sample_fetch "1551" (Some 30))
                            [100] init_state)) /\
    exists p, (sample_game "1551" (Some 30)).(plays) !! 1%nat = Some p /\
      sc_int p 2 = Some (home_skaters row) /\ 0 <= home_skaters row <= 9.
Proof.
  destruct (nth_error (snd (scrape_fenwick_shots sample_provider (sample_fetch "1551" (Some 30))
                              [100] init_state)) 1) as [r|] eqn:E;
    [|vm_compute in E; discriminate E].
  exists r. assert (Hin : In r (snd (scrape_fenwick_shots sample_provider
                                      (sample_fetch "1551" (Some 30)) [100] init_state)))
    by (eapply nth_error_In; exact E).
  split; [exact Hin|].
  destruct (scrape_rows_skaters _ _ _ _ r Hin)
    as (gd & k & p & pd & Hf & Hk & Ht & _ & _ & _ & _ & _ & _ & Hh & _ & Hb & _).
  vm_compute in E. injection E as <-. vm_compute in Hf. injection Hf as <-.
  vm_compute in Ht.
  destruct k as [|[|k]]; vm_compute in Hk; [injection Hk as <-; discriminate Ht| |discriminate Hk].
  exists p. split; [exact Hk|]. split; assumption.
Defined.

(** X13: scraping the games of [gs1 ++ gs2] is scraping those of [gs1] and
    then those of [gs2] from the state and rows reached, the rows of [gs2]
    being appended after those of [gs1]; when a fetch in [gs1] fails the
    result is that of [gs1] alone (no rows, caches kept). *)
Theorem scrape_games_app (prov : provider) (fetch : fetcher) (gs1 gs2 : list Z)
    (st : scraper_state) (rows : list shot_record) :
  scrape_games prov fetch (gs1 ++ gs2) st rows =
  if forallb (λ g, bool_decide (is_Some (fetch g))) gs1 then
    let '(st1, rows1) := scrape_games prov fetch gs1 st rows in
    scrape_games prov fetch gs2 st1 rows1
  else scrape_games prov fetch gs1 st rows.
Proof.
  revert st rows. induction gs1 as [|g gs IH]; intros st rows; simpl; [reflexivity|].
  destruct (fetch g) as [gd|] eqn:Hg; simpl.
  - try rewrite bool_decide_eq_true_2 by eauto.
    destruct (scan_plays _ _ _ _ _ _ _ _ _) as [st' rows']. exact (IH st' rows').
  - try rewrite bool_decide_eq_false_2 by (intros [v Hv]; discriminate Hv). reflexivity.
Qed.
